(** * Response mapping of the image analyzer page ([src/app/page.tsx])

    The page sends an image to an agent and maps the decoded response into
    the [AnalysisResult] shape that it renders.  The mapping is the block of
    [handleAnalyze] that computes [finalResult] (lines 224-276); the
    surrounding [try]/[catch]/[finally] turns its outcome into updates of the
    component state.  This file embeds both, with the JavaScript operators
    they use, and settles the properties stated about them; it then embeds
    the other handlers of the page and what the result panel shows. *)

From Stdlib Require Import ZArith String List.
From stdpp Require Import base option strings gmap.

Open Scope string_scope.

(** ** JavaScript values

    A decoded JSON payload is a JavaScript value.  [VUndef] is what a read of
    a missing property gives; it never occurs inside a decoded payload, but
    the mapping computes with it.  Objects are finite maps from property
    names to values: a decoded object has each key once.  Numbers are kept as
    integers: the handler only tests them for truthiness and passes them on,
    and zero is the only falsy number a decoder produces. *)

#[warnings="-register-all"]
Inductive value : Type :=
  | VUndef
  | VNull
  | VBool (b : bool)
  | VNum (n : Z)
  | VStr (s : string)
  | VArr (l : list value)
  | VObj (o : gmap string value).

(** An object literal [{k1: v1, ..., kn: vn}] with distinct keys. *)
Definition obj (fields : list (string * value)) : value :=
  VObj (list_to_map fields).

(** [ToBoolean]: what [if (v)], [v || w] and [v && w] test. *)
Definition truthy (v : value) : bool :=
  match v with
  | VUndef | VNull => false
  | VBool b => b
  | VNum n => negb (n =? 0)%Z
  | VStr s => negb (String.eqb s "")
  | VArr _ | VObj _ => true
  end.

(** [null] and [undefined], the two values a property cannot be read of. *)
Definition nullish (v : value) : bool :=
  match v with
  | VUndef | VNull => true
  | _ => false
  end.

(** [Array.isArray(v)]. *)
Definition isArray (v : value) : bool :=
  match v with
  | VArr _ => true
  | _ => false
  end.

(** The value of property [k] of a value that is neither [null] nor
    [undefined].  Only the property names of [handleAnalyze] are read
    ([result], [data], [summary], ...): none of them is inherited from a
    prototype, so a read on a primitive or an array gives [undefined] and a
    read on an object gives its own property. *)
Definition get (k : string) (v : value) : value :=
  match v with
  | VObj o => default VUndef (o !! k)
  | _ => VUndef
  end.

(** [v || w] with both operands already evaluated. *)
Definition js_or (v w : value) : value :=
  if truthy v then v else w.

(** [v && w] with both operands already evaluated. *)
Definition js_and (v w : value) : value :=
  if truthy v then w else v.

(** ** Abrupt completion

    A property read of [null] or [undefined] throws a [TypeError].  The
    message is the engine's (here as V8 words it); the handler shows it but
    nothing depends on its wording. *)

Inductive exn : Type :=
  | TypeError (message : string).

Definition message (e : exn) : string :=
  match e with TypeError m => m end.

Inductive completion (A : Type) : Type :=
  | Normal (a : A)
  | Throw (e : exn).
Arguments Normal {A} a.
Arguments Throw {A} e.

#[export] Instance completion_ret : MRet completion := fun _ a => Normal a.
#[export] Instance completion_bind : MBind completion := fun _ _ f c =>
  match c with
  | Normal a => f a
  | Throw e => Throw e
  end.

Definition type_name (v : value) : string :=
  match v with VNull => "null" | _ => "undefined" end.

(** [v.k] *)
Definition member (v : value) (k : string) : completion value :=
  if nullish v
  then Throw (TypeError ("Cannot read properties of " ++ type_name v
                         ++ " (reading '" ++ k ++ "')"))
  else Normal (get k v).

(** [v?.k] *)
Definition opt_member (v : value) (k : string) : value :=
  if nullish v then VUndef else get k v.

(** [v || e] where [e] is evaluated only when [v] is falsy. *)
Definition or_else (v : value) (e : completion value) : completion value :=
  if truthy v then Normal v else e.

(** [v && e] where [e] is evaluated only when [v] is truthy. *)
Definition and_then (v : value) (e : completion value) : completion value :=
  if truthy v then e else Normal v.

(** ** The mapping of [handleAnalyze] *)

(** The three branches that assign [finalResult] (Path 1, 2, 3). *)
Inductive candidate : Type :=
  | Canonical
  | Flattened
  | DoubleNested.

(** What the mapping block leaves behind: [finalResult], and the branch that
    assigned it ([None] when none did and [finalResult] is still [null]). *)
Record mapped : Type := Mapped {
  path : option candidate;
  finalResult : value
}.

Definition AGENT_NAME : string := "Image Analyzer Agent".

(** [{ agent_name: 'Image Analyzer Agent', timestamp: new Date().toISOString() }]
    where [now] is what the clock gives at that point. *)
Definition fallback_metadata (now : string) : value :=
  obj [("agent_name", VStr AGENT_NAME); ("timestamp", VStr now)].

(** [normalized.metadata || { agent_name: ..., timestamp: ... }] *)
Definition metadata_or_fallback (now : string) (normalized : value)
    : completion value :=
  m ← member normalized "metadata";
  mret (js_or m (fallback_metadata now)).

(** The object literal of Path 2 (lines 240-263). *)
Definition flattened_result (now : string) (normalized res : value)
    : completion value :=
  status ← member normalized "status";
  summary ← (s ← member res "summary";
             sm ← or_else s (member normalized "message");
             mret (js_or sm (VStr "Image analysis completed")));
  scene_description ← member res "scene_description";
  objects_detected ← (o ← member res "objects_detected";
                      if isArray o then member res "objects_detected"
                      else mret (VArr []));
  text_extracted ← member res "text_extracted";
  dominant_colors ← (c ← member res "color_analysis";
                     mret (js_or (opt_member c "dominant_colors") (VArr [])));
  emotional_tone ← (m ← member res "mood_and_context";
                    mret (js_or (opt_member m "emotional_tone") (VStr "")));
  suggested_use_cases ← (m ← member res "mood_and_context";
                         if isArray (opt_member m "suggested_use_cases")
                         then m' ← member res "mood_and_context";
                              member m' "suggested_use_cases"
                         else mret (VArr []));
  metadata ← metadata_or_fallback now normalized;
  mret (obj [
    ("status", js_or status (VStr "success"));
    ("result", obj [
       ("summary", summary);
       ("data", obj [
          ("scene_description", js_or scene_description (VStr ""));
          ("objects_detected", objects_detected);
          ("text_extracted", js_or text_extracted (VStr ""));
          ("color_analysis", obj [("dominant_colors", dominant_colors)]);
          ("mood_and_context", obj [
             ("emotional_tone", emotional_tone);
             ("suggested_use_cases", suggested_use_cases)])])]);
    ("metadata", metadata)]).

(** The object literal of Path 3 (lines 267-274). *)
Definition double_nested_result (now : string) (normalized res : value)
    : completion value :=
  status ← member normalized "status";
  metadata ← metadata_or_fallback now normalized;
  mret (obj [
    ("status", js_or status (VStr "success"));
    ("result", res);
    ("metadata", metadata)]).

(** [res.scene_description || res.objects_detected || res.color_analysis
     || res.mood_and_context] (line 239). *)
Definition markers (res : value) : completion value :=
  a ← member res "scene_description";
  b ← or_else a (member res "objects_detected");
  c ← or_else b (member res "color_analysis");
  or_else c (member res "mood_and_context").

(** Lines 228-276: [finalResult] starts as [null] and the first branch whose
    test is truthy assigns it. *)
Definition reconcile (now : string) (normalized : value) : completion mapped :=
  r ← member normalized "result";
  if truthy (opt_member r "data") then
    mret (Mapped (Some Canonical) normalized)
  else
    res ← member normalized "result";
    if truthy res then
      mk ← markers res;
      if truthy mk then
        out ← flattened_result now normalized res;
        mret (Mapped (Some Flattened) out)
      else
        s ← member res "summary";
        sd ← and_then s (member res "data");
        if truthy sd then
          out ← double_nested_result now normalized res;
          mret (Mapped (Some DoubleNested) out)
        else mret (Mapped None VNull)
    else mret (Mapped None VNull).

(** ** The handler around the mapping

    [handleAnalyze] from the point where [callAIAgent] has resolved with
    [result]; the upload and the call themselves are not modelled. *)

(** What [callAIAgent] resolves with. *)
Record agent_result : Type := AgentResult {
  success : bool;
  response : value;
  agent_error : option string
}.

(** The component state the handler writes.  [rawResponse] holds the text
    [JSON.stringify(result, null, 2)]; the model keeps the value that was
    serialised ([None] for the initial empty string). *)
Record ui : Type := Ui {
  isAnalyzing : bool;
  error : option string;
  analysisResult : value;
  showDebug : bool;
  rawResponse : option agent_result
}.

Definition setIsAnalyzing (b : bool) (st : ui) : ui :=
  Ui b (error st) (analysisResult st) (showDebug st) (rawResponse st).
Definition setError (e : option string) (st : ui) : ui :=
  Ui (isAnalyzing st) e (analysisResult st) (showDebug st) (rawResponse st).
Definition setAnalysisResult (r : value) (st : ui) : ui :=
  Ui (isAnalyzing st) (error st) r (showDebug st) (rawResponse st).
Definition setShowDebug (b : bool) (st : ui) : ui :=
  Ui (isAnalyzing st) (error st) (analysisResult st) b (rawResponse st).
Definition setRawResponse (r : option agent_result) (st : ui) : ui :=
  Ui (isAnalyzing st) (error st) (analysisResult st) (showDebug st) r.

Definition PARSE_ERROR : string :=
  "Could not parse agent response. Enable debug view to see raw response.".

(** [result.error || 'Failed to analyze image'] *)
Definition error_or_default (e : option string) : string :=
  match e with
  | Some s => if String.eqb s "" then "Failed to analyze image" else s
  | None => "Failed to analyze image"
  end.

(** Lines 224-290, run in the state [st] reached after line 222.  The only
    statement that can throw is the mapping, which writes no state, so an
    abrupt completion leaves [st] as it was. *)
Definition try_block (now : string) (result : agent_result) (st : ui)
    : completion ui :=
  if success result then
    m ← reconcile now (response result);
    if truthy (finalResult m) then
      mret (setAnalysisResult (finalResult m) st)
    else
      mret (setShowDebug true (setError (Some PARSE_ERROR) st))
  else
    mret (setShowDebug true (setError (Some (error_or_default (agent_error result))) st)).

(** Lines 204-296. *)
Definition handleAnalyze (now : string) (result : agent_result) (st : ui) : ui :=
  let st := setError None (setIsAnalyzing true st) in
  let st := setRawResponse (Some result) st in
  let st :=
    match try_block now result st with
    | Normal st' => st'
    | Throw e => setError (Some (message e)) st
    end in
  setIsAnalyzing false st.

(** ** What the page reads from the displayed result

    The renderer reads each field through optional chaining, as in
    [displayResult?.result?.data?.objects_detected]. *)

Definition field_summary (r : value) : value :=
  opt_member (opt_member r "result") "summary".
Definition data_of (r : value) : value :=
  opt_member (opt_member r "result") "data".
Definition field_scene_description (r : value) : value :=
  opt_member (data_of r) "scene_description".
Definition field_objects_detected (r : value) : value :=
  opt_member (data_of r) "objects_detected".
Definition field_text_extracted (r : value) : value :=
  opt_member (data_of r) "text_extracted".
Definition field_dominant_colors (r : value) : value :=
  opt_member (opt_member (data_of r) "color_analysis") "dominant_colors".
Definition field_emotional_tone (r : value) : value :=
  opt_member (opt_member (data_of r) "mood_and_context") "emotional_tone".
Definition field_suggested_use_cases (r : value) : value :=
  opt_member (opt_member (data_of r) "mood_and_context") "suggested_use_cases".
Definition field_metadata (r : value) : value :=
  opt_member r "metadata".

(** ** The branch tests, read off the payload

    The tests of lines 231, 235/239 and 266 on a payload that is neither
    [null] nor [undefined], where no read throws. *)

(** [normalized.result?.data] (line 231). *)
Definition canonical_shape (normalized : value) : bool :=
  truthy (opt_member (get "result" normalized) "data").

(** Line 239 on [res]. *)
Definition has_marker (res : value) : bool :=
  truthy (get "scene_description" res) || truthy (get "objects_detected" res)
  || truthy (get "color_analysis" res) || truthy (get "mood_and_context" res).

(** Lines 235 and 239. *)
Definition flattened_shape (normalized : value) : bool :=
  truthy (get "result" normalized) && has_marker (get "result" normalized).

(** Lines 235 and 266. *)
Definition double_nested_shape (normalized : value) : bool :=
  truthy (get "result" normalized)
  && (truthy (get "summary" (get "result" normalized))
      && truthy (get "data" (get "result" normalized))).

(** The branch the [if]/[else if] chain takes. *)
Definition select (normalized : value) : option candidate :=
  if canonical_shape normalized then Some Canonical
  else if flattened_shape normalized then Some Flattened
  else if double_nested_shape normalized then Some DoubleNested
  else None.

(** The value of the Path 2 literal when no read throws. *)
Definition flattened_object (now : string) (normalized res : value) : value :=
  obj [
    ("status", js_or (get "status" normalized) (VStr "success"));
    ("result", obj [
       ("summary", js_or (js_or (get "summary" res) (get "message" normalized))
                         (VStr "Image analysis completed"));
       ("data", obj [
          ("scene_description", js_or (get "scene_description" res) (VStr ""));
          ("objects_detected",
             if isArray (get "objects_detected" res)
             then get "objects_detected" res else VArr []);
          ("text_extracted", js_or (get "text_extracted" res) (VStr ""));
          ("color_analysis", obj [
             ("dominant_colors",
                js_or (opt_member (get "color_analysis" res) "dominant_colors")
                      (VArr []))]);
          ("mood_and_context", obj [
             ("emotional_tone",
                js_or (opt_member (get "mood_and_context" res) "emotional_tone")
                      (VStr ""));
             ("suggested_use_cases",
                if isArray (opt_member (get "mood_and_context" res)
                                       "suggested_use_cases")
                then get "suggested_use_cases" (get "mood_and_context" res)
                else VArr [])])])]);
    ("metadata", js_or (get "metadata" normalized) (fallback_metadata now))].

(** The value of the Path 3 literal when no read throws. *)
Definition double_nested_object (now : string) (normalized res : value) : value :=
  obj [
    ("status", js_or (get "status" normalized) (VStr "success"));
    ("result", res);
    ("metadata", js_or (get "metadata" normalized) (fallback_metadata now))].

(** What the mapping leaves behind on a payload that can be read. *)
Definition reconcile_value (now : string) (normalized : value) : mapped :=
  match select normalized with
  | Some Canonical => Mapped (Some Canonical) normalized
  | Some Flattened =>
      Mapped (Some Flattened)
             (flattened_object now normalized (get "result" normalized))
  | Some DoubleNested =>
      Mapped (Some DoubleNested)
             (double_nested_object now normalized (get "result" normalized))
  | None => Mapped None VNull
  end.

(** The branch taken, [None] also when the mapping throws. *)
Definition path_of (c : completion mapped) : option candidate :=
  match c with
  | Normal m => path m
  | Throw _ => None
  end.

(** ** Payloads and states used as test inputs *)

(** The state of a freshly mounted page. *)
Definition initial_ui : ui := Ui false None VNull false None.

(** An instant, as [toISOString] prints it. *)
Definition noon : string := "2024-01-01T12:00:00.000Z".

(** [{result: {data: {}}}] *)
Definition payload_empty_data : value :=
  obj [("result", obj [("data", obj [])])].

(** [{foo: "bar"}] *)
Definition payload_foo : value := obj [("foo", VStr "bar")].

(** [{qux: "bar"}] *)
Definition payload_qux : value := obj [("qux", VStr "bar")].

(** [{result: {scene_description: "D", objects_detected: []}}] *)
Definition payload_flat : value :=
  obj [("result", obj [("scene_description", VStr "D");
                       ("objects_detected", VArr [])])].

(** [{result: {summary: "", scene_description: "D"}}] *)
Definition payload_flat_empty_summary : value :=
  obj [("result", obj [("summary", VStr ""); ("scene_description", VStr "D")])].

(** [{result: {summary: "S2", data: {scene_description: "D2"}}}] *)
Definition payload_nested : value :=
  obj [("result", obj [("summary", VStr "S2");
                       ("data", obj [("scene_description", VStr "D2")])])].

(** [{result: {data: {scene_description: "inner"}, scene_description: "outer"}}] *)
Definition payload_both : value :=
  obj [("result", obj [("data", obj [("scene_description", VStr "inner")]);
                       ("scene_description", VStr "outer")])].

(** [{result: {data: null}}] *)
Definition payload_null_data : value :=
  obj [("result", obj [("data", VNull)])].

(** [{result: {data: 0, summary: "S"}}] *)
Definition payload_zero_data : value :=
  obj [("result", obj [("data", VNum 0); ("summary", VStr "S")])].

(** [{result: {scene_description: ""}}] *)
Definition payload_empty_marker : value :=
  obj [("result", obj [("scene_description", VStr "")])].

(** [{result: {text_extracted: "hello"}}] *)
Definition payload_text_only : value :=
  obj [("result", obj [("text_extracted", VStr "hello")])].

(** The top-level keys of a payload.  The handler computes no such set; it is
    what an error record listing the observed keys would have to hold. *)
Definition observedTopLevelKeys (raw : value) : gset string :=
  match raw with
  | VObj o => dom o
  | _ => ∅
  end.

(** [k in v] for the property names read here: an own property of an
    object, whatever its value. *)
Definition has_property (k : string) (v : value) : bool :=
  match v with
  | VObj o => bool_decide (is_Some (o !! k))
  | _ => false
  end.

(** The four properties line 239 looks for on [result]. *)
Definition marker_names : list string :=
  ["scene_description"; "objects_detected"; "color_analysis"; "mood_and_context"].

(** One of the four is present on [res], truthy or not. *)
Definition marker_present (res : value) : bool :=
  existsb (fun k => has_property k res) marker_names.

(** [{result: {data: null, scene_description: "D"}}] *)
Definition payload_null_data_marker : value :=
  obj [("result", obj [("data", VNull); ("scene_description", VStr "D")])].

(** ** The rest of the page

    The other handlers of the component and what it renders.  The page state
    gathers the [useState] cells the handlers write; [liveUrls] is the
    browser's store of object URLs, which [URL.createObjectURL] extends and
    [URL.revokeObjectURL] shrinks.  The [copiedText] cell and its timer, the
    file input element and the styling are left out. *)

(** A [File] as far as the page looks at it. *)
Record file : Type := File {
  file_name : string;
  file_type : string;
  file_size : N
}.

(** [ImageData]; [base64] is [undefined] when the split found no second
    piece. *)
Record image_data : Type := ImageData {
  image_file : file;
  preview : string;
  base64 : option string
}.

Record page : Type := Page {
  imageData : option image_data;
  isDragging : bool;
  useSampleData : bool;
  core : ui;
  liveUrls : gset string
}.

Definition with_core (f : ui -> ui) (w : page) : page :=
  Page (imageData w) (isDragging w) (useSampleData w) (f (core w)) (liveUrls w).
Definition setImageData (i : option image_data) (w : page) : page :=
  Page i (isDragging w) (useSampleData w) (core w) (liveUrls w).
Definition setIsDragging (b : bool) (w : page) : page :=
  Page (imageData w) b (useSampleData w) (core w) (liveUrls w).
Definition setUseSampleData (b : bool) (w : page) : page :=
  Page (imageData w) (isDragging w) b (core w) (liveUrls w).
Definition createObjectURL (url : string) (w : page) : page :=
  Page (imageData w) (isDragging w) (useSampleData w) (core w) ({[ url ]} ∪ liveUrls w).
Definition revokeObjectURL (url : string) (w : page) : page :=
  Page (imageData w) (isDragging w) (useSampleData w) (core w) (liveUrls w ∖ {[ url ]}).

(** What a rejected promise or a [throw] carries, as far as
    [err instanceof Error] tells apart. *)
Inductive thrown : Type :=
  | ErrorObject (msg : string)
  | OtherValue.

Inductive settled (A : Type) : Type :=
  | Resolved (a : A)
  | Rejected (r : thrown).
Arguments Resolved {A} a.
Arguments Rejected {A} r.

(** *** [convertToBase64] *)

(** [s.split(sep)] for a separator of one character. *)
Fixpoint split_on (sep : Ascii.ascii) (s : string) : list string :=
  match s with
  | EmptyString => [EmptyString]
  | String c rest =>
      if Ascii.eqb c sep then EmptyString :: split_on sep rest
      else match split_on sep rest with
           | piece :: pieces => String c piece :: pieces
           | [] => [String c EmptyString]
           end
  end.

Definition COMMA : Ascii.ascii := Ascii.ascii_of_nat 44.

(** How [FileReader.readAsDataURL] ends: [onload] with the data URL in
    [reader.result], or [onerror]. *)
Inductive read_outcome : Type :=
  | Loaded (dataUrl : string)
  | ReadError.

(** Lines 131-141: resolves with [base64.split(',')[1]], rejects with the
    error event. *)
Definition convertToBase64 (r : read_outcome) : settled (option string) :=
  match r with
  | Loaded dataUrl => Resolved (split_on COMMA dataUrl !! 1%nat)
  | ReadError => Rejected OtherValue
  end.

(** *** [handleFileSelect] *)

Definition validTypes : list string :=
  ["image/jpeg"; "image/png"; "image/webp"; "image/gif"].

(** [l.includes(x)] on strings. *)
Definition includes (l : list string) (x : string) : bool :=
  existsb (String.eqb x) l.

(** [10 * 1024 * 1024] *)
Definition MAX_SIZE : N := 10 * 1024 * 1024.

Definition TYPE_ERROR : string :=
  "Please upload a valid image file (JPG, PNG, WEBP, or GIF)".
Definition SIZE_ERROR : string := "File size must be less than 10MB".
Definition PROCESS_ERROR : string := "Failed to process image".

(** Lines 143-172.  [url] is the object URL the browser hands out for the
    file and [read] how reading the file ends. *)
Definition handleFileSelect (f : file) (url : string) (read : read_outcome)
    (w : page) : page :=
  let w := with_core (setError None) w in
  if negb (includes validTypes (file_type f)) then
    with_core (setError (Some TYPE_ERROR)) w
  else if (MAX_SIZE <? file_size f)%N then
    with_core (setError (Some SIZE_ERROR)) w
  else
    let w := createObjectURL url w in
    match convertToBase64 read with
    | Resolved b =>
        with_core (setAnalysisResult VNull)
          (setImageData (Some (ImageData f url b)) w)
    | Rejected _ => with_core (setError (Some PROCESS_ERROR)) w
    end.

(** Lines 174-182: [e.dataTransfer.files[0]]. *)
Definition handleDrop (files : list file) (url : string) (read : read_outcome)
    (w : page) : page :=
  let w := setIsDragging false w in
  match files with
  | f :: _ => handleFileSelect f url read w
  | [] => w
  end.

(** Lines 184-187. *)
Definition handleDragOver (w : page) : page := setIsDragging true w.

(** Lines 189-192. *)
Definition handleDragLeave (w : page) : page := setIsDragging false w.

(** Lines 194-199: [e.target.files?.[0]]. *)
Definition handleFileInputChange (files : list file) (url : string)
    (read : read_outcome) (w : page) : page :=
  match files with
  | f :: _ => handleFileSelect f url read w
  | [] => w
  end.

(** *** [handleAnalyze] with its upload and its agent call *)

Definition AGENT_ID : string := "698bd590544d8929157d0282".

Definition QUOTE : string := String (Ascii.ascii_of_nat 34) EmptyString.

(** The prompt of line 215. *)
Definition PROMPT : string :=
  "Analyze this image and provide a comprehensive breakdown in JSON format with these sections: scene_description (string), objects_detected (array of {object, confidence}), text_extracted (string), color_analysis ({dominant_colors: array of {color_name, hex_code}}), and mood_and_context ({emotional_tone, suggested_use_cases array}). Return as: {status: "
  ++ QUOTE ++ "success" ++ QUOTE
  ++ ", result: {summary: string, data: {...}}, metadata: {agent_name, timestamp}}".

(** What [uploadFiles] resolves with; [asset_ids] is [None] when the
    property is missing. *)
Record upload_result : Type := UploadResult {
  asset_ids : option (list string)
}.

(** The calls the handler makes to [@/lib/aiAgent]. *)
Inductive call : Type :=
  | UploadFiles (f : file)
  | CallAIAgent (prompt agent_id : string) (assets : list string).

Definition UPLOAD_ERROR : string := "Failed to upload image".

(** Line 293: [err instanceof Error ? err.message : '...']. *)
Definition catch_message (r : thrown) : string :=
  match r with
  | ErrorObject m => m
  | OtherValue => "An error occurred during analysis"
  end.

(** The [catch] and [finally] of lines 291-296. *)
Definition catch_finally (r : thrown) (st : ui) : ui :=
  setIsAnalyzing false (setError (Some (catch_message r)) st).

(** Lines 201-297.  [uploadFiles] and [callAIAgent] stand for the two
    functions of the library; the result pairs the state with the calls made,
    in order.  Once the agent has resolved the rest is [handleAnalyze]. *)
Definition handleAnalyze_run (now : string)
    (uploadFiles : file -> settled upload_result)
    (callAIAgent : string -> string -> list string -> settled agent_result)
    (w : page) : page * list call :=
  match imageData w with
  | None => (w, [])
  | Some img =>
      let started := setError None (setIsAnalyzing true (core w)) in
      match uploadFiles (image_file img) with
      | Rejected r =>
          (with_core (fun _ => catch_finally r started) w,
           [UploadFiles (image_file img)])
      | Resolved uploadResult =>
          match asset_ids uploadResult with
          | Some (id :: ids) =>
              let calls := [UploadFiles (image_file img);
                            CallAIAgent PROMPT AGENT_ID (id :: ids)] in
              match callAIAgent PROMPT AGENT_ID (id :: ids) with
              | Rejected r =>
                  (with_core (fun _ => catch_finally r started) w, calls)
              | Resolved result =>
                  (with_core (handleAnalyze now result) w, calls)
              end
          | _ =>
              (with_core
                 (fun _ => catch_finally (ErrorObject UPLOAD_ERROR) started) w,
               [UploadFiles (image_file img)])
          end
      end
  end.

(** *** [handleClearAll], [handleRemoveImage] and the two switches *)

(** [if (imageData?.preview) URL.revokeObjectURL(imageData.preview)] *)
Definition revoke_preview (w : page) : page :=
  match imageData w with
  | Some img =>
      if String.eqb (preview img) "" then w else revokeObjectURL (preview img) w
  | None => w
  end.

(** Lines 299-310. *)
Definition handleClearAll (w : page) : page :=
  let w := revoke_preview w in
  let w := setImageData None w in
  let w := with_core (setAnalysisResult VNull) w in
  let w := with_core (setError None) w in
  setUseSampleData false w.

(** Lines 312-321. *)
Definition handleRemoveImage (w : page) : page :=
  let w := revoke_preview w in
  let w := setImageData None w in
  with_core (setAnalysisResult VNull) w.

(** [() => setShowDebug(!showDebug)] *)
Definition toggleDebug (w : page) : page :=
  with_core (fun st => setShowDebug (negb (showDebug st)) st) w.

(** [() => setUseSampleData(!useSampleData)] *)
Definition toggleSampleData (w : page) : page :=
  setUseSampleData (negb (useSampleData w)) w.

(** *** What the page shows *)



(** [v ?? d] *)
Definition nullish_or (v d : value) : value :=
  if nullish v then d else v.

(** [v.k1.k2...kn], every read unguarded. *)
Fixpoint members (v : value) (ks : list string) : completion value :=
  match ks with
  | [] => Normal v
  | k :: ks => x ← member v k; members x ks
  end.

(** [v.length > 0]: the read throws on [null] and [undefined]; arrays and
    strings have a length, and for anything else [undefined > 0] is false. *)
Definition length_positive (v : value) : completion bool :=
  _ ← member v "length";
  mret (match v with
        | VArr l => (0 <? length l)%nat
        | VStr s => (0 <? String.length s)%nat
        | _ => false
        end).

(** [v.map(row)]: only arrays have the method. *)
Definition js_map {A : Type} (row : value -> A) (v : value) : completion (list A) :=
  _ ← member v "map";
  match v with
  | VArr l => Normal (map row l)
  | _ => Throw (TypeError "map is not a function")
  end.

(** [Array.isArray(guard) && d.ks.length > 0 ? d.ks.map(row) : placeholder],
    the pattern of lines 530, 579 and 611; [None] stands for the
    placeholder. *)
Definition list_section {A : Type} (guard d : value) (ks : list string)
    (row : value -> A) : completion (option (list A)) :=
  if isArray guard then
    l ← members d ks;
    positive ← length_positive l;
    if (positive : bool) then
      l' ← members d ks;
      rows ← js_map row l';
      mret (Some rows)
    else mret None
  else mret None.

(** Lines 534 and 536: the name and the confidence shown for one object. *)
Definition object_row (o : value) : value * value :=
  (nullish_or (opt_member o "object") (VStr "Unknown"),
   nullish_or (opt_member o "confidence") (VStr "N/A")).

(** Lines 585-589: the swatch colour, the name and the code shown for one
    colour. *)
Definition color_row (c : value) : value * value * value :=
  (nullish_or (opt_member c "hex_code") (VStr "#000000"),
   nullish_or (opt_member c "color_name") (VStr "Unknown"),
   nullish_or (opt_member c "hex_code") (VStr "N/A")).

(** The values the result panel hands to React (lines 504-640).  [None] in a
    list or text field is its placeholder line; [metadata_shown] is [None]
    when the metadata card is left out, and its timestamp is [None] when
    ['N/A'] is shown (the date formatting itself is not modelled). *)
Record panel : Type := Panel {
  summary_shown : value;
  scene_shown : value;
  objects_shown : option (list (value * value));
  text_shown : option value;
  colors_shown : option (list (value * value * value));
  tone_shown : value;
  uses_shown : option (list value);
  metadata_shown : option (value * option value)
}.

Definition text_section (d : value) : completion (option value) :=
  if truthy (field_text_extracted d) then
    t ← members d ["result"; "data"; "text_extracted"];
    mret (Some t)
  else mret None.

Definition metadata_section (d : value) : completion (option (value * option value)) :=
  if truthy (field_metadata d) then
    agent ← members d ["metadata"; "agent_name"];
    t ← members d ["metadata"; "timestamp"];
    stamp ← (if truthy t
             then t' ← members d ["metadata"; "timestamp"]; mret (Some t')
             else mret None);
    mret (Some (nullish_or agent (VStr "Unknown"), stamp))
  else mret None.

(** The panel for [displayResult = d]; [None] when [d] is falsy and the
    panel is left out. *)
Definition render_panel (d : value) : completion (option panel) :=
  if truthy d then
    objects ← list_section (field_objects_detected d) d
                 ["result"; "data"; "objects_detected"] object_row;
    text ← text_section d;
    colors ← list_section (field_dominant_colors d) d
                ["result"; "data"; "color_analysis"; "dominant_colors"] color_row;
    uses ← list_section (field_suggested_use_cases d) d
              ["result"; "data"; "mood_and_context"; "suggested_use_cases"]
              (fun useCase => useCase);
    metadata ← metadata_section d;
    mret (Some (Panel
      (nullish_or (field_summary d) (VStr "No summary available"))
      (nullish_or (field_scene_description d) (VStr "No scene description available"))
      objects text colors
      (nullish_or (field_emotional_tone d) (VStr "Unknown"))
      uses metadata))
  else mret None.

(** A list field as the panel shows it when no read throws. *)
Definition shown_list {A : Type} (row : value -> A) (v : value) : option (list A) :=
  match v with
  | VArr (x :: l) => Some (map row (x :: l))
  | _ => None
  end.

(** The panel for a truthy [d] when no read throws. *)
Definition panel_of (d : value) : panel :=
  Panel
    (nullish_or (field_summary d) (VStr "No summary available"))
    (nullish_or (field_scene_description d) (VStr "No scene description available"))
    (shown_list object_row (field_objects_detected d))
    (if truthy (field_text_extracted d) then Some (field_text_extracted d) else None)
    (shown_list color_row (field_dominant_colors d))
    (nullish_or (field_emotional_tone d) (VStr "Unknown"))
    (shown_list (fun useCase => useCase) (field_suggested_use_cases d))
    (if truthy (field_metadata d)
     then Some (nullish_or (get "agent_name" (field_metadata d)) (VStr "Unknown"),
                if truthy (get "timestamp" (field_metadata d))
                then Some (get "timestamp" (field_metadata d)) else None)
     else None).



(** *** Runs of the page

    [handleFileSelect] and [handleAnalyze] are [async]: each runs up to an
    [await], and the page takes further events until the awaited call
    settles and the handler resumes.  A run of the page is therefore a
    sequence of steps, each either a handler started by the user or the
    resumption of a handler whose call has settled, in any order; every step
    sees the state the step before it left. *)

(** A call that was started and has not settled yet, with what its handler
    holds on to for the resumption. *)
Inductive pending_op : Type :=
  | Reading (f : file) (url : string)
  | Uploading (f : file)
  | Asking (assets : list string).

(** The page with the calls in flight. *)
Record session : Type := Session {
  shown : page;
  pending : list pending_op
}.

(** [handleFileSelect] up to [await convertToBase64(file)] (lines 143-161):
    the checks, and for a file that passes them the object URL and the read
    that is started. *)
Definition select_start (f : file) (url : string) (w : page)
    : page * option pending_op :=
  let w := with_core (setError None) w in
  if negb (includes validTypes (file_type f)) then
    (with_core (setError (Some TYPE_ERROR)) w, None)
  else if (MAX_SIZE <? file_size f)%N then
    (with_core (setError (Some SIZE_ERROR)) w, None)
  else
    (createObjectURL url w, Some (Reading f url)).

(** [handleFileSelect] from the point where the read has settled (lines
    161-171). *)
Definition select_settled (f : file) (url : string) (read : read_outcome)
    (w : page) : page :=
  match convertToBase64 read with
  | Resolved b =>
      with_core (setAnalysisResult VNull)
        (setImageData (Some (ImageData f url b)) w)
  | Rejected _ => with_core (setError (Some PROCESS_ERROR)) w
  end.

(** [handleAnalyze] up to [await uploadFiles(imageData.file)] (lines
    201-208). *)
Definition analyze_start (w : page) : page * option pending_op :=
  match imageData w with
  | None => (w, None)
  | Some img =>
      (with_core (fun st => setError None (setIsAnalyzing true st)) w,
       Some (Uploading (image_file img)))
  end.

(** [handleAnalyze] from the settled upload up to [await callAIAgent(...)]
    (lines 208-218), or to its end when the upload failed or brought no
    asset id. *)
Definition upload_settled (r : settled upload_result) (w : page)
    : page * option pending_op :=
  match r with
  | Rejected e => (with_core (catch_finally e) w, None)
  | Resolved uploadResult =>
      match asset_ids uploadResult with
      | Some (id :: ids) => (w, Some (Asking (id :: ids)))
      | _ => (with_core (catch_finally (ErrorObject UPLOAD_ERROR)) w, None)
      end
  end.

(** Lines 220-296 in the state [st] the page is in when the agent has
    answered: the raw response, the mapping, [catch] and [finally]. *)
Definition agent_answered (now : string) (result : agent_result) (st : ui) : ui :=
  let st := setRawResponse (Some result) st in
  let st :=
    match try_block now result st with
    | Normal st' => st'
    | Throw e => setError (Some (message e)) st
    end in
  setIsAnalyzing false st.

(** [handleAnalyze] from the point where the agent call has settled. *)
Definition agent_settled (now : string) (r : settled agent_result) (w : page)
    : page :=
  match r with
  | Rejected e => with_core (catch_finally e) w
  | Resolved result => with_core (agent_answered now result) w
  end.

(** One step of the page: a handler the user starts, with the object URL the
    browser would hand out during it, or the resumption of the handler
    waiting for the [i]-th call in flight, with how that call settled. *)
Inductive action : Type :=
  | DragOver
  | DragLeave
  | Drop (files : list file) (url : string)
  | FileInputChange (files : list file) (url : string)
  | AnalyzeClick
  | ClearAll
  | RemoveImage
  | ToggleDebug
  | ToggleSampleData
  | ReadSettled (i : nat) (read : read_outcome)
  | UploadSettled (i : nat) (r : settled upload_result)
  | AgentSettled (i : nat) (now : string) (r : settled agent_result).

(** The calls in flight after a handler has started [o]. *)
Definition started (o : option pending_op) (l : list pending_op)
    : list pending_op :=
  match o with
  | Some op => l ++ [op]
  | None => l
  end.

Definition step (s : session) (a : action) : session :=
  match a with
  | DragOver => Session (handleDragOver (shown s)) (pending s)
  | DragLeave => Session (handleDragLeave (shown s)) (pending s)
  | Drop files url =>
      let w := setIsDragging false (shown s) in
      match files with
      | f :: _ =>
          Session (fst (select_start f url w))
                  (started (snd (select_start f url w)) (pending s))
      | [] => Session w (pending s)
      end
  | FileInputChange files url =>
      match files with
      | f :: _ =>
          Session (fst (select_start f url (shown s)))
                  (started (snd (select_start f url (shown s))) (pending s))
      | [] => s
      end
  | AnalyzeClick =>
      Session (fst (analyze_start (shown s)))
              (started (snd (analyze_start (shown s))) (pending s))
  | ClearAll => Session (handleClearAll (shown s)) (pending s)
  | RemoveImage => Session (handleRemoveImage (shown s)) (pending s)
  | ToggleDebug => Session (toggleDebug (shown s)) (pending s)
  | ToggleSampleData => Session (toggleSampleData (shown s)) (pending s)
  | ReadSettled i read =>
      match pending s !! i with
      | Some (Reading f url) =>
          Session (select_settled f url read (shown s)) (delete i (pending s))
      | _ => s
      end
  | UploadSettled i r =>
      match pending s !! i with
      | Some (Uploading _) =>
          Session (fst (upload_settled r (shown s)))
                  (started (snd (upload_settled r (shown s)))
                           (delete i (pending s)))
      | _ => s
      end
  | AgentSettled i now r =>
      match pending s !! i with
      | Some (Asking _) =>
          Session (agent_settled now r (shown s)) (delete i (pending s))
      | _ => s
      end
  end.

Definition steps (s : session) (acts : list action) : session :=
  foldl step s acts.

(** The page as mounted: no image, nothing shown, no object URL. *)
Definition initial_page : page := Page None false false initial_ui ∅.

(** The page as mounted, with no call in flight. *)
Definition initial_session : session := Session initial_page [].

(** The preview of the held image is an object URL that has not been
    revoked. *)
Definition preview_live (w : page) : Prop :=
  match imageData w with
  | Some img => preview img ∈ liveUrls w
  | None => True
  end.

(** The object URL the browser is asked for during a step, if any. *)
Definition action_urls (a : action) : list string :=
  match a with
  | Drop (_ :: _) url | FileInputChange (_ :: _) url => [url]
  | _ => []
  end.

(** The browser never hands out an object URL that is live: along the run
    [acts] from [s], every URL asked for is new at its step. *)
Fixpoint fresh_urls (s : session) (acts : list action) : Prop :=
  match acts with
  | [] => True
  | a :: acts =>
      (forall url, url ∈ action_urls a -> url ∉ liveUrls (shown s))
      /\ fresh_urls (step s a) acts
  end.

(** The URL a read in flight will become the preview of. *)
Definition reading_url (op : pending_op) : option string :=
  match op with
  | Reading _ url => Some url
  | _ => None
  end.

Definition urls_in_flight (l : list pending_op) : list string :=
  omap reading_url l.

Definition held_url (w : page) : list string :=
  match imageData w with
  | Some img => [preview img]
  | None => []
  end.

(** The URLs the page still has a use for: the preview of the held image
    and those of the reads in flight. *)
Definition urls_in_use (s : session) : list string :=
  held_url (shown s) ++ urls_in_flight (pending s).

(** The URLs in use are distinct and live. *)
Definition urls_in_use_live (s : session) : Prop :=
  NoDup (urls_in_use s)
  /\ forall url, url ∈ urls_in_use s -> url ∈ liveUrls (shown s).

(** [url] is live and the page has no use for it any more. *)
Definition leaked (url : string) (s : session) : Prop :=
  url ∈ liveUrls (shown s) /\ url ∉ urls_in_use s.

(** Whether character [c] occurs in [s]. *)
Fixpoint occurs (c : Ascii.ascii) (s : string) : bool :=
  match s with
  | EmptyString => false
  | String c' rest => Ascii.eqb c' c || occurs c rest
  end.

(** [v?.k1?.k2...?.kn] *)
Definition opt_members (v : value) (ks : list string) : value :=
  foldl opt_member v ks.

(** ** Reads that cannot throw *)

Lemma truthy_not_nullish (v : value) : truthy v = true -> nullish v = false.
Proof. destruct v; simpl; congruence. Qed.

Lemma member_defined (v : value) (k : string) :
  nullish v = false -> member v k = Normal (get k v).
Proof. intros H. unfold member. rewrite H. reflexivity. Qed.

Lemma opt_member_defined (v : value) (k : string) :
  nullish v = false -> opt_member v k = get k v.
Proof. intros H. unfold opt_member. rewrite H. reflexivity. Qed.

Lemma opt_member_falsy (v : value) (k : string) :
  truthy v = false -> opt_member v k = VUndef.
Proof. destruct v; simpl; try reflexivity; discriminate. Qed.

Lemma bind_normal {A B : Type} (a : A) (f : A -> completion B) :
  (Normal a ≫= f) = f a.
Proof. reflexivity. Qed.

Lemma or_else_normal (v w : value) : or_else v (Normal w) = Normal (js_or v w).
Proof. unfold or_else, js_or. destruct (truthy v); reflexivity. Qed.

Lemma and_then_normal (v w : value) : and_then v (Normal w) = Normal (js_and v w).
Proof. unfold and_then, js_and. destruct (truthy v); reflexivity. Qed.

Lemma js_or_truthy (v w : value) : truthy v = true -> js_or v w = v.
Proof. intros H. unfold js_or. rewrite H. reflexivity. Qed.

Lemma js_or_falsy (v w : value) : truthy v = false -> js_or v w = w.
Proof. intros H. unfold js_or. rewrite H. reflexivity. Qed.

Lemma truthy_js_or (v w : value) : truthy (js_or v w) = truthy v || truthy w.
Proof. unfold js_or. destruct (truthy v) eqn:E; simpl; [exact E | reflexivity]. Qed.

Lemma truthy_js_and (v w : value) : truthy (js_and v w) = truthy v && truthy w.
Proof. unfold js_and. destruct (truthy v) eqn:E; simpl; [reflexivity | exact E]. Qed.

Lemma metadata_or_fallback_normal (now : string) (normalized : value) :
  nullish normalized = false ->
  metadata_or_fallback now normalized
  = Normal (js_or (get "metadata" normalized) (fallback_metadata now)).
Proof.
  intros H. unfold metadata_or_fallback. rewrite (member_defined _ _ H).
  reflexivity.
Qed.

Lemma markers_normal (res : value) :
  nullish res = false ->
  exists mk, markers res = Normal mk /\ truthy mk = has_marker res.
Proof.
  intros H. unfold markers. rewrite !(member_defined _ _ H).
  rewrite bind_normal, or_else_normal, bind_normal, or_else_normal, bind_normal,
    or_else_normal.
  eexists. split; [reflexivity|].
  rewrite !truthy_js_or. reflexivity.
Qed.

Lemma flattened_result_normal (now : string) (normalized res : value) :
  nullish normalized = false -> nullish res = false ->
  flattened_result now normalized res
  = Normal (flattened_object now normalized res).
Proof.
  intros Hn Hr. unfold flattened_result.
  rewrite (metadata_or_fallback_normal _ _ Hn).
  rewrite !(member_defined _ _ Hn), !(member_defined _ _ Hr).
  rewrite !bind_normal, or_else_normal, !bind_normal.
  unfold flattened_object.
  destruct (isArray (get "objects_detected" res));
    destruct (isArray (opt_member (get "mood_and_context" res)
                                  "suggested_use_cases")) eqn:Eu;
    rewrite ?bind_normal; try reflexivity.
  all: assert (Hm : nullish (get "mood_and_context" res) = false)
    by (destruct (nullish (get "mood_and_context" res)) eqn:Em; [|reflexivity];
        unfold opt_member in Eu; rewrite Em in Eu; discriminate).
  all: rewrite (member_defined _ _ Hm); reflexivity.
Qed.

Lemma double_nested_result_normal (now : string) (normalized res : value) :
  nullish normalized = false ->
  double_nested_result now normalized res
  = Normal (double_nested_object now normalized res).
Proof.
  intros Hn. unfold double_nested_result.
  rewrite (metadata_or_fallback_normal _ _ Hn), (member_defined _ _ Hn).
  reflexivity.
Qed.

(** The mapping throws exactly on [null] and [undefined]; elsewhere it leaves
    what the branch tests select. *)
Lemma reconcile_normal (now : string) (normalized : value) :
  nullish normalized = false ->
  reconcile now normalized = Normal (reconcile_value now normalized).
Proof.
  intros Hn. unfold reconcile, reconcile_value, select.
  rewrite !(member_defined _ _ Hn), !bind_normal.
  fold (canonical_shape normalized).
  destruct (canonical_shape normalized) eqn:E1; [reflexivity|].
  unfold flattened_shape, double_nested_shape.
  destruct (truthy (get "result" normalized)) eqn:Er; [|reflexivity].
  pose proof (truthy_not_nullish _ Er) as Hr.
  destruct (markers_normal _ Hr) as (mk & -> & Hmk).
  rewrite bind_normal, Hmk. simpl andb.
  destruct (has_marker (get "result" normalized)).
  - rewrite (flattened_result_normal _ _ _ Hn Hr). reflexivity.
  - rewrite !(member_defined _ _ Hr), bind_normal, and_then_normal, bind_normal.
    rewrite truthy_js_and.
    destruct (truthy (get "summary" (get "result" normalized))
              && truthy (get "data" (get "result" normalized))); [|reflexivity].
    rewrite (double_nested_result_normal _ _ _ Hn). reflexivity.
Qed.

Lemma reconcile_throws (now : string) (normalized : value) :
  nullish normalized = true ->
  exists e, reconcile now normalized = Throw e.
Proof.
  intros Hn. unfold reconcile, member. rewrite Hn. eexists. reflexivity.
Qed.

(** A truthy [res.data] already satisfies the test of Path 1, so the test of
    Path 3 cannot hold once Path 1 was not taken. *)
Lemma double_nested_needs_canonical (normalized : value) :
  double_nested_shape normalized = true -> canonical_shape normalized = true.
Proof.
  unfold double_nested_shape, canonical_shape. intros H.
  apply andb_prop in H as [Hr H]. apply andb_prop in H as [_ Hd].
  rewrite (opt_member_defined _ _ (truthy_not_nullish _ Hr)). exact Hd.
Qed.

Lemma select_not_double_nested (normalized : value) :
  select normalized <> Some DoubleNested.
Proof.
  unfold select.
  destruct (canonical_shape normalized) eqn:E1; [discriminate|].
  destruct (flattened_shape normalized); [discriminate|].
  destruct (double_nested_shape normalized) eqn:E3; [|discriminate].
  rewrite (double_nested_needs_canonical _ E3) in E1. discriminate.
Qed.

(** ** Consequences for the outcome *)

Lemma reconcile_inv (now : string) (raw : value) (m : mapped) :
  reconcile now raw = Normal m ->
  nullish raw = false /\ m = reconcile_value now raw.
Proof.
  intros H. destruct (nullish raw) eqn:Hn.
  - destruct (reconcile_throws now raw Hn) as [e He]. congruence.
  - rewrite (reconcile_normal now raw Hn) in H. split; congruence.
Qed.

Lemma path_reconcile_value (now : string) (raw : value) :
  path (reconcile_value now raw) = select raw.
Proof.
  unfold reconcile_value. destruct (select raw) as [[]|]; reflexivity.
Qed.

Lemma path_of_reconcile (now : string) (raw : value) :
  path_of (reconcile now raw) = if nullish raw then None else select raw.
Proof.
  destruct (nullish raw) eqn:Hn.
  - destruct (reconcile_throws now raw Hn) as [e ->]. reflexivity.
  - rewrite (reconcile_normal now raw Hn). apply path_reconcile_value.
Qed.

Lemma canonical_is_object (raw : value) :
  canonical_shape raw = true -> exists o, raw = VObj o.
Proof.
  unfold canonical_shape. destruct raw; simpl; try discriminate. eauto.
Qed.

Lemma select_some_not_nullish (raw : value) (c : candidate) :
  select raw = Some c -> nullish raw = false.
Proof. destruct raw; try reflexivity; discriminate. Qed.

Lemma finalResult_canonical (now : string) (raw : value) :
  select raw = Some Canonical -> finalResult (reconcile_value now raw) = raw.
Proof. intros H. unfold reconcile_value. rewrite H. reflexivity. Qed.

Lemma finalResult_flattened (now : string) (raw : value) :
  select raw = Some Flattened ->
  finalResult (reconcile_value now raw)
  = flattened_object now raw (get "result" raw).
Proof. intros H. unfold reconcile_value. rewrite H. reflexivity. Qed.

Lemma finalResult_none (now : string) (raw : value) :
  select raw = None -> reconcile_value now raw = Mapped None VNull.
Proof. intros H. unfold reconcile_value. rewrite H. reflexivity. Qed.

(** Whatever branch assigned it, an assigned [finalResult] passes the test
    of line 278. *)
Lemma finalResult_truthy (now : string) (raw : value) (c : candidate) :
  select raw = Some c -> truthy (finalResult (reconcile_value now raw)) = true.
Proof.
  intros H. unfold reconcile_value. rewrite H.
  destruct c; try reflexivity.
  unfold select in H. destruct (canonical_shape raw) eqn:E.
  - destruct (canonical_is_object raw E) as [o ->]. reflexivity.
  - destruct (flattened_shape raw); [discriminate|].
    destruct (double_nested_shape raw); discriminate.
Qed.

(** *** Fields of the Path 2 literal, as the page reads them *)

Section FlattenedFields.
Variables (now : string) (normalized res : value).

Lemma flattened_summary :
  field_summary (flattened_object now normalized res)
  = js_or (js_or (get "summary" res) (get "message" normalized))
          (VStr "Image analysis completed").
Proof. reflexivity. Qed.

Lemma flattened_scene_description :
  field_scene_description (flattened_object now normalized res)
  = js_or (get "scene_description" res) (VStr "").
Proof. reflexivity. Qed.

Lemma flattened_objects_detected :
  field_objects_detected (flattened_object now normalized res)
  = if isArray (get "objects_detected" res)
    then get "objects_detected" res else VArr [].
Proof. reflexivity. Qed.

Lemma flattened_text_extracted :
  field_text_extracted (flattened_object now normalized res)
  = js_or (get "text_extracted" res) (VStr "").
Proof. reflexivity. Qed.

Lemma flattened_dominant_colors :
  field_dominant_colors (flattened_object now normalized res)
  = js_or (opt_member (get "color_analysis" res) "dominant_colors") (VArr []).
Proof. reflexivity. Qed.

Lemma flattened_suggested_use_cases :
  field_suggested_use_cases (flattened_object now normalized res)
  = if isArray (opt_member (get "mood_and_context" res) "suggested_use_cases")
    then get "suggested_use_cases" (get "mood_and_context" res)
    else VArr [].
Proof. reflexivity. Qed.

Lemma flattened_metadata :
  field_metadata (flattened_object now normalized res)
  = js_or (get "metadata" normalized) (fallback_metadata now).
Proof. reflexivity. Qed.

Lemma flattened_result_keys :
  has_marker (get "result" (flattened_object now normalized res)) = false.
Proof. reflexivity. Qed.
End FlattenedFields.

(** *** The four ways the handler ends *)

Lemma handleAnalyze_mapped now raw err st c :
  select raw = Some c ->
  handleAnalyze now (AgentResult true raw err) st
  = Ui false None (finalResult (reconcile_value now raw)) (showDebug st)
       (Some (AgentResult true raw err)).
Proof.
  intros H. unfold handleAnalyze, try_block. simpl.
  rewrite (reconcile_normal now raw (select_some_not_nullish raw c H)).
  rewrite bind_normal, (finalResult_truthy now raw c H). reflexivity.
Qed.

Lemma handleAnalyze_no_match now raw err st :
  nullish raw = false -> select raw = None ->
  handleAnalyze now (AgentResult true raw err) st
  = Ui false (Some PARSE_ERROR) (analysisResult st) true
       (Some (AgentResult true raw err)).
Proof.
  intros Hn H. unfold handleAnalyze, try_block. simpl.
  rewrite (reconcile_normal now raw Hn), bind_normal, (finalResult_none now raw H).
  reflexivity.
Qed.

Lemma handleAnalyze_thrown now raw err st :
  nullish raw = true ->
  exists e, reconcile now raw = Throw e /\
    handleAnalyze now (AgentResult true raw err) st
    = Ui false (Some (message e)) (analysisResult st) (showDebug st)
         (Some (AgentResult true raw err)).
Proof.
  intros Hn. destruct (reconcile_throws now raw Hn) as [e He].
  exists e. split; [exact He|].
  unfold handleAnalyze, try_block. simpl. rewrite He. reflexivity.
Qed.

Lemma handleAnalyze_upstream_failure now raw err st :
  handleAnalyze now (AgentResult false raw err) st
  = Ui false (Some (error_or_default err)) (analysisResult st) true
       (Some (AgentResult false raw err)).
Proof. reflexivity. Qed.

(** ** The mapping never lets a fault escape the handler *)

(** C1, as the code has it.  The mapping is a total function.  On every
    payload other than [null] (and [undefined], which no decoder produces) it
    completes normally, leaving either an assigned, truthy [finalResult] or
    [null] with no branch taken.  On [null] the first property read throws;
    the [catch] of the handler turns that into an error message, so for
    every payload the handler ends with either a result shown and no error,
    or an error set and the shown result untouched. *)
Theorem reconcile_total_and_caught (now : string) (raw : value) :
  (nullish raw = false ->
   exists m, reconcile now raw = Normal m /\
     ((path m = None /\ finalResult m = VNull)
      \/ (exists c, path m = Some c /\ truthy (finalResult m) = true)))
  /\ (forall ok err st,
        let st' := handleAnalyze now (AgentResult ok raw err) st in
        (error st' = None /\ truthy (analysisResult st') = true)
        \/ (exists msg, error st' = Some msg
                        /\ analysisResult st' = analysisResult st)).
Proof.
  split.
  - intros Hn. exists (reconcile_value now raw).
    split; [exact (reconcile_normal now raw Hn)|].
    rewrite path_reconcile_value.
    destruct (select raw) as [c|] eqn:Hs.
    + right. exists c. split; [reflexivity|]. exact (finalResult_truthy now raw c Hs).
    + left. rewrite (finalResult_none now raw Hs). split; reflexivity.
  - intros [] err st st'; subst st'.
    + destruct (nullish raw) eqn:Hn.
      * destruct (handleAnalyze_thrown now raw err st Hn) as (e & _ & ->).
        right. exists (message e). split; reflexivity.
      * destruct (select raw) as [c|] eqn:Hs.
        -- rewrite (handleAnalyze_mapped now raw err st c Hs).
           left. split; [reflexivity|]. exact (finalResult_truthy now raw c Hs).
        -- rewrite (handleAnalyze_no_match now raw err st Hn Hs).
           right. exists PARSE_ERROR. split; reflexivity.
    + rewrite handleAnalyze_upstream_failure.
      right. eexists. split; reflexivity.
Qed.

(** A number is mapped without a fault: no branch is taken. *)
Lemma reconcile_total_and_caught_witness :
  exists m, reconcile noon (VNum 5) = Normal m /\
    ((path m = None /\ finalResult m = VNull)
     \/ (exists c, path m = Some c /\ truthy (finalResult m) = true)).
Proof.
  exact (proj1 (reconcile_total_and_caught noon (VNum 5)) eq_refl).
Defined.

(** C1 fails as stated: on the payload [null] the mapping throws a
    [TypeError] at its first property read ([normalized.result], line 231);
    the handler then shows the engine's message and does not switch the debug
    view on. *)
Lemma reconcile_null_throws :
  reconcile noon VNull
  = Throw (TypeError "Cannot read properties of null (reading 'result')")
  /\ handleAnalyze noon (AgentResult true VNull None) initial_ui
     = Ui false (Some "Cannot read properties of null (reading 'result')")
          VNull false (Some (AgentResult true VNull None)).
Proof. split; reflexivity. Qed.

(** ** Array fields of the output *)

(** C2, as the code has it.  Path 2 builds [objects_detected] and
    [suggested_use_cases] behind [Array.isArray], so they are arrays in every
    result it makes, and its [dominant_colors] is an array whenever the
    payload's is an array or falsy.  Path 1 hands the payload on unchanged,
    so there each of the three fields is whatever the payload holds. *)
Theorem array_fields_by_path (now : string) (raw : value) (m : mapped) :
  reconcile now raw = Normal m ->
  (path m = Some Flattened ->
     isArray (field_objects_detected (finalResult m)) = true
     /\ isArray (field_suggested_use_cases (finalResult m)) = true
     /\ (let colors :=
           opt_member (get "color_analysis" (get "result" raw)) "dominant_colors" in
         isArray colors || negb (truthy colors) = true ->
         isArray (field_dominant_colors (finalResult m)) = true))
  /\ (path m = Some Canonical ->
        field_objects_detected (finalResult m) = field_objects_detected raw
        /\ field_dominant_colors (finalResult m) = field_dominant_colors raw
        /\ field_suggested_use_cases (finalResult m)
           = field_suggested_use_cases raw).
Proof.
  intros H. destruct (reconcile_inv now raw m H) as [Hn ->].
  rewrite path_reconcile_value. split; intros Hs.
  - rewrite (finalResult_flattened now raw Hs).
    rewrite flattened_objects_detected, flattened_suggested_use_cases,
      flattened_dominant_colors.
    split; [|split].
    + destruct (isArray (get "objects_detected" (get "result" raw))) eqn:E;
        [exact E | reflexivity].
    + destruct (isArray (opt_member (get "mood_and_context" (get "result" raw))
                                    "suggested_use_cases")) eqn:E; [|reflexivity].
      rewrite <- (opt_member_defined (get "mood_and_context" (get "result" raw))
                                     "suggested_use_cases"); [exact E|].
      destruct (nullish (get "mood_and_context" (get "result" raw))) eqn:Em;
        [|reflexivity].
      unfold opt_member in E. rewrite Em in E. discriminate.
    + intros colors Hc. fold colors. unfold js_or.
      destruct (truthy colors) eqn:Et; [|reflexivity].
      rewrite orb_false_r in Hc. exact Hc.
  - rewrite (finalResult_canonical now raw Hs). repeat split.
Qed.

(** The flattened payload [payload_flat] has its three array fields as
    arrays, and the canonical [payload_empty_data] keeps its own. *)
Lemma array_fields_by_path_witness :
  (isArray (field_objects_detected
              (flattened_object noon payload_flat (get "result" payload_flat)))
   = true
   /\ isArray (field_suggested_use_cases
                 (flattened_object noon payload_flat (get "result" payload_flat)))
      = true)
  /\ field_objects_detected
       (finalResult (Mapped (Some Canonical) payload_empty_data))
     = field_objects_detected payload_empty_data.
Proof.
  split.
  - pose proof (proj1 (array_fields_by_path noon payload_flat
        (Mapped (Some Flattened)
           (flattened_object noon payload_flat (get "result" payload_flat)))
        eq_refl) eq_refl) as (H1 & H2 & _).
    exact (conj H1 H2).
  - exact (proj1 (proj2 (array_fields_by_path noon payload_empty_data
        (Mapped (Some Canonical) payload_empty_data) eq_refl) eq_refl)).
Defined.

(** C2 fails as stated: [{result: {data: {}}}] is mapped successfully (by
    Path 1) and none of the three array fields of the output is an array;
    reading them gives [undefined]. *)
Lemma array_fields_absent_counterexample :
  reconcile noon payload_empty_data
  = Normal (Mapped (Some Canonical) payload_empty_data)
  /\ field_objects_detected payload_empty_data = VUndef
  /\ field_dominant_colors payload_empty_data = VUndef
  /\ field_suggested_use_cases payload_empty_data = VUndef
  /\ isArray (field_objects_detected payload_empty_data) = false
  /\ isArray (field_dominant_colors payload_empty_data) = false
  /\ isArray (field_suggested_use_cases payload_empty_data) = false.
Proof. repeat split. Qed.

(** ** Path 1 hands the payload on unchanged *)

(** C3, as the code has it.  When the test of Path 1 holds
    ([normalized.result?.data] is truthy) the result is the payload itself:
    no subfield is coerced or defaulted, and reading any field of the result
    gives what reading it off the payload gives. *)
Theorem canonical_is_verbatim (now : string) (raw : value) :
  canonical_shape raw = true ->
  reconcile now raw = Normal (Mapped (Some Canonical) raw).
Proof.
  intros H. destruct (canonical_is_object raw H) as [o ->].
  rewrite reconcile_normal by reflexivity.
  unfold reconcile_value, select. rewrite H. reflexivity.
Qed.

(** [{result: {data: {}}}] comes back as it went in. *)
Lemma canonical_is_verbatim_witness :
  reconcile noon payload_empty_data
  = Normal (Mapped (Some Canonical) payload_empty_data).
Proof. exact (canonical_is_verbatim noon payload_empty_data eq_refl). Defined.

(** C3 fails as stated: on [{result: {data: {}}}] Path 1 is taken and the
    string fields of the output are not the empty string nor its array
    fields the empty array; all of them are absent. *)
Lemma canonical_not_defaulted_counterexample :
  exists out,
    reconcile noon payload_empty_data = Normal (Mapped (Some Canonical) out)
    /\ field_scene_description out = VUndef
    /\ field_scene_description out <> VStr ""
    /\ field_text_extracted out = VUndef
    /\ field_emotional_tone out = VUndef
    /\ field_summary out = VUndef
    /\ field_objects_detected out <> VArr []
    /\ field_dominant_colors out <> VArr []
    /\ field_suggested_use_cases out <> VArr []
    /\ field_metadata out = VUndef.
Proof.
  exists payload_empty_data. repeat split; discriminate.
Qed.

(** ** No branch taken *)

(** C4, as the code has it.  On every payload other than [null] on which
    none of the three branch tests holds, the mapping leaves [finalResult]
    at [null]; the handler then sets the fixed message [PARSE_ERROR],
    switches the debug view on, keeps the raw response it stored before the
    mapping, and leaves the shown result as it was: no empty result is put
    in its place. *)
Theorem no_match_is_reported (now : string) (raw : value) :
  nullish raw = false ->
  canonical_shape raw = false ->
  flattened_shape raw = false ->
  double_nested_shape raw = false ->
  reconcile now raw = Normal (Mapped None VNull)
  /\ forall err st,
       let st' := handleAnalyze now (AgentResult true raw err) st in
       error st' = Some PARSE_ERROR
       /\ showDebug st' = true
       /\ rawResponse st' = Some (AgentResult true raw err)
       /\ analysisResult st' = analysisResult st.
Proof.
  intros Hn H1 H2 H3.
  assert (Hs : select raw = None) by (unfold select; rewrite H1, H2, H3; reflexivity).
  split.
  - rewrite (reconcile_normal now raw Hn), (finalResult_none now raw Hs).
    reflexivity.
  - intros err st st'. subst st'.
    rewrite (handleAnalyze_no_match now raw err st Hn Hs). repeat split.
Qed.

(** [{foo: "bar"}] is reported as unparseable. *)
Lemma no_match_is_reported_witness :
  reconcile noon payload_foo = Normal (Mapped None VNull)
  /\ forall err st,
       let st' := handleAnalyze noon (AgentResult true payload_foo err) st in
       error st' = Some PARSE_ERROR
       /\ showDebug st' = true
       /\ rawResponse st' = Some (AgentResult true payload_foo err)
       /\ analysisResult st' = analysisResult st.
Proof.
  exact (no_match_is_reported noon payload_foo eq_refl eq_refl eq_refl eq_refl).
Defined.

(** C4 fails as stated: the error the handler reports for [{foo: "bar"}] is
    the fixed text [PARSE_ERROR], which does not contain the observed key
    [foo] and is the very error reported for [{qux: "bar"}], a payload with
    other top-level keys; the error names neither the branches tried nor the
    keys seen.  And on [null], where no branch test holds either, the error
    is the engine's message and the debug view stays off. *)
Lemma error_lists_no_keys_counterexample :
  error (handleAnalyze noon (AgentResult true payload_foo None) initial_ui)
  = Some PARSE_ERROR
  /\ String.index 0 "foo" PARSE_ERROR = None
  /\ error (handleAnalyze noon (AgentResult true payload_qux None) initial_ui)
     = error (handleAnalyze noon (AgentResult true payload_foo None) initial_ui)
  /\ observedTopLevelKeys payload_foo = {[ "foo" ]}
  /\ observedTopLevelKeys payload_qux <> observedTopLevelKeys payload_foo
  /\ select VNull = None
  /\ error (handleAnalyze noon (AgentResult true VNull None) initial_ui)
     <> Some PARSE_ERROR
  /\ showDebug (handleAnalyze noon (AgentResult true VNull None) initial_ui)
     = false.
Proof.
  repeat split; discriminate.
Qed.

(** ** First match wins *)

Lemma flattened_result_no_marker (now : string) (normalized res : value) :
  marker_present (get "result" (flattened_object now normalized res)) = false.
Proof. reflexivity. Qed.

(** C5, as the code has it.  The branches are tried in the order Path 1,
    Path 2, Path 3 and the first whose test holds is taken; the test of Path
    1 is that [result.data] is truthy, as it is whenever it is an object.  On
    every payload with a truthy [result.data] and a marker property directly
    on [result], whatever the marker's value, Path 1 is taken: the result is
    the payload itself, and it differs from the object the Path 2 literal
    would have made.  A [result.data] that is falsy, be it present as
    [null], [0], [false] or the empty string, does not pass the test of Path
    1: with a truthy marker such a payload is mapped by Path 2. *)
Theorem canonical_wins_over_flattened (now : string) (raw : value) :
  (canonical_shape raw = true ->
   marker_present (get "result" raw) = true ->
   reconcile now raw = Normal (Mapped (Some Canonical) raw)
   /\ flattened_result now raw (get "result" raw) <> Normal raw)
  /\ (truthy (get "data" (get "result" raw)) = false ->
      flattened_shape raw = true ->
      reconcile now raw
      = Normal (Mapped (Some Flattened)
                  (flattened_object now raw (get "result" raw)))).
Proof.
  split.
  - intros H1 H2. destruct (canonical_is_object raw H1) as [o ->].
    split.
    + rewrite reconcile_normal by reflexivity.
      unfold reconcile_value, select. rewrite H1. reflexivity.
    + assert (Hr : nullish (get "result" (VObj o)) = false).
      { destruct (nullish (get "result" (VObj o))) eqn:Hn; [|reflexivity].
        unfold canonical_shape, opt_member in H1. rewrite Hn in H1. discriminate. }
      rewrite (flattened_result_normal now (VObj o) _ eq_refl Hr).
      intros Heq.
      assert (Hout : flattened_object now (VObj o) (get "result" (VObj o)) = VObj o)
        by congruence.
      pose proof (flattened_result_no_marker now (VObj o) (get "result" (VObj o)))
        as Hk.
      rewrite Hout in Hk. congruence.
  - intros Hd Hf.
    assert (Hn : nullish raw = false)
      by (destruct raw; try reflexivity; discriminate Hf).
    assert (Hc : canonical_shape raw = false).
    { unfold flattened_shape in Hf. apply andb_prop in Hf as [Hr _].
      unfold canonical_shape.
      rewrite (opt_member_defined _ _ (truthy_not_nullish _ Hr)). exact Hd. }
    rewrite (reconcile_normal now raw Hn).
    unfold reconcile_value, select. rewrite Hc, Hf. reflexivity.
Qed.

(** [payload_both] has a truthy [result.data] and a marker on [result], and
    Path 1 takes it; [payload_null_data_marker] has [result.data] present
    but [null], and Path 2 takes it. *)
Lemma canonical_wins_over_flattened_witness :
  (reconcile noon payload_both = Normal (Mapped (Some Canonical) payload_both)
   /\ flattened_result noon payload_both (get "result" payload_both)
      <> Normal payload_both)
  /\ reconcile noon payload_null_data_marker
     = Normal (Mapped (Some Flattened)
                 (flattened_object noon payload_null_data_marker
                    (get "result" payload_null_data_marker))).
Proof.
  split.
  - exact (proj1 (canonical_wins_over_flattened noon payload_both)
             eq_refl eq_refl).
  - exact (proj2 (canonical_wins_over_flattened noon payload_null_data_marker)
             eq_refl eq_refl).
Defined.

(** C5 fails as stated: in [{result: {data: null, scene_description: "D"}}]
    the property [result.data] is present and a marker sits directly on
    [result], yet the branch taken is Path 2 and not Path 1: the result is
    the object the Path 2 literal makes, not the payload. *)
Lemma present_data_not_selected_counterexample :
  has_property "data" (get "result" payload_null_data_marker) = true
  /\ marker_present (get "result" payload_null_data_marker) = true
  /\ path_of (reconcile noon payload_null_data_marker) = Some Flattened
  /\ path_of (reconcile noon payload_null_data_marker) <> Some Canonical
  /\ (exists out,
        reconcile noon payload_null_data_marker
        = Normal (Mapped (Some Flattened) out)
        /\ out <> payload_null_data_marker
        /\ field_scene_description out = VStr "D"
        /\ field_summary out = VStr "Image analysis completed").
Proof.
  repeat split; try discriminate.
  eexists. repeat split. discriminate.
Qed.

(** ** The summary of a flattened payload *)

(** C6, as the code has it.  In a result made by Path 2 the summary is
    [result.summary] when that is truthy; otherwise the top-level [message]
    when that is truthy; otherwise the literal ["Image analysis completed"].
    An absent property reads as [undefined], which is falsy, so an absent
    summary falls back as well.  For
    [{result: {scene_description: "D", objects_detected: []}}] this gives the
    literal summary, the scene description ["D"] and the fallback
    metadata. *)
Theorem flattened_summary_fallback (now : string) :
  (forall raw m,
     reconcile now raw = Normal m ->
     path m = Some Flattened ->
     let s := get "summary" (get "result" raw) in
     let msg := get "message" raw in
     (truthy s = true -> field_summary (finalResult m) = s)
     /\ (truthy s = false -> truthy msg = true ->
         field_summary (finalResult m) = msg)
     /\ (truthy s = false -> truthy msg = false ->
         field_summary (finalResult m) = VStr "Image analysis completed"))
  /\ (exists out,
        reconcile now payload_flat = Normal (Mapped (Some Flattened) out)
        /\ field_summary out = VStr "Image analysis completed"
        /\ field_scene_description out = VStr "D"
        /\ field_metadata out = fallback_metadata now).
Proof.
  split.
  - intros raw m H Hp s msg. destruct (reconcile_inv now raw m H) as [Hn ->].
    rewrite path_reconcile_value in Hp.
    rewrite (finalResult_flattened now raw Hp), flattened_summary.
    fold s msg. repeat split.
    + intros Hs. rewrite (js_or_truthy s msg Hs). exact (js_or_truthy _ _ Hs).
    + intros Hs Hm. rewrite (js_or_falsy s msg Hs). exact (js_or_truthy _ _ Hm).
    + intros Hs Hm. rewrite (js_or_falsy s msg Hs). exact (js_or_falsy _ _ Hm).
  - eexists. repeat split.
Qed.

(** On [payload_flat] neither a summary nor a message is there, and the
    summary is the literal. *)
Lemma flattened_summary_fallback_witness :
  field_summary (flattened_object noon payload_flat (get "result" payload_flat))
  = VStr "Image analysis completed".
Proof.
  exact (proj2 (proj2 (proj1 (flattened_summary_fallback noon) payload_flat
    (Mapped (Some Flattened)
       (flattened_object noon payload_flat (get "result" payload_flat)))
    eq_refl eq_refl)) eq_refl eq_refl).
Defined.

(** C6 fails as stated: in [{result: {summary: "", scene_description: "D"}}]
    the property [result.summary] is present, but the summary of the output
    is the literal and not the payload's empty string. *)
Lemma empty_summary_replaced_counterexample :
  exists out,
    reconcile noon payload_flat_empty_summary
    = Normal (Mapped (Some Flattened) out)
    /\ get "summary" (get "result" payload_flat_empty_summary) = VStr ""
    /\ field_summary out = VStr "Image analysis completed"
    /\ field_summary out <> get "summary" (get "result" payload_flat_empty_summary).
Proof. eexists. repeat split. discriminate. Qed.

(** ** Path 3 is never taken *)

(** C7, as the code has it.  Path 3 is tried only after Path 1 and Path 2
    and asks for a truthy [result.summary] and a truthy [result.data]; but
    every payload that has these passes the test of Path 1 and is handed on
    unchanged by it, so no payload is ever mapped by Path 3.  The payload
    [{result: {summary: "S2", data: {scene_description: "D2"}}}] is mapped
    successfully, by Path 1, to itself: its summary is ["S2"] and its scene
    description ["D2"]. *)
Theorem double_nested_never_selected (now : string) :
  (forall raw,
     double_nested_shape raw = true ->
     canonical_shape raw = true
     /\ reconcile now raw = Normal (Mapped (Some Canonical) raw))
  /\ (forall raw, path_of (reconcile now raw) <> Some DoubleNested)
  /\ (reconcile now payload_nested = Normal (Mapped (Some Canonical) payload_nested)
      /\ field_summary payload_nested = VStr "S2"
      /\ field_scene_description payload_nested = VStr "D2").
Proof.
  split; [|split].
  - intros raw H. pose proof (double_nested_needs_canonical raw H) as Hc.
    split; [exact Hc|].
    destruct (canonical_is_object raw Hc) as [o ->].
    rewrite reconcile_normal by reflexivity.
    unfold reconcile_value, select. rewrite Hc. reflexivity.
  - intros raw. rewrite path_of_reconcile.
    destruct (nullish raw); [discriminate|]. apply select_not_double_nested.
  - repeat split.
Qed.

(** [payload_nested] has a truthy summary and data; Path 1 takes it. *)
Lemma double_nested_never_selected_witness :
  canonical_shape payload_nested = true
  /\ reconcile noon payload_nested
     = Normal (Mapped (Some Canonical) payload_nested).
Proof.
  exact (proj1 (double_nested_never_selected noon) payload_nested eq_refl).
Defined.

(** C7 fails as stated.  Its own example,
    [{result: {summary: "S2", data: {scene_description: "D2"}}}], is mapped
    by Path 1 and not by Path 3.  And [{result: {data: 0, summary: "S"}}],
    on which neither Path 1 nor Path 2 matches and where [result.summary]
    and [result.data] are both present, is not mapped by Path 3 either: no
    branch is taken. *)
Lemma double_nested_not_selected_counterexample :
  path_of (reconcile noon payload_nested) = Some Canonical
  /\ path_of (reconcile noon payload_nested) <> Some DoubleNested
  /\ canonical_shape payload_zero_data = false
  /\ flattened_shape payload_zero_data = false
  /\ get "summary" (get "result" payload_zero_data) = VStr "S"
  /\ get "data" (get "result" payload_zero_data) = VNum 0
  /\ reconcile noon payload_zero_data = Normal (Mapped None VNull).
Proof. repeat split. discriminate. Qed.

(** ** Metadata of the output *)

(** C8, as the code has it.  A result made by Path 2 carries the payload's
    [metadata] when that is truthy, and otherwise the fallback: the agent
    name ["Image Analyzer Agent"] and the instant the clock gives.  Path 1
    hands the payload on unchanged, so there the metadata is the payload's
    own, absent when the payload has none. *)
Theorem metadata_by_path (now : string) (raw : value) (m : mapped) :
  reconcile now raw = Normal m ->
  (path m = Some Flattened ->
     (truthy (get "metadata" raw) = false ->
        field_metadata (finalResult m) = fallback_metadata now
        /\ get "agent_name" (field_metadata (finalResult m)) = VStr AGENT_NAME
        /\ get "timestamp" (field_metadata (finalResult m)) = VStr now)
     /\ (truthy (get "metadata" raw) = true ->
           field_metadata (finalResult m) = get "metadata" raw))
  /\ (path m = Some Canonical ->
        field_metadata (finalResult m) = get "metadata" raw).
Proof.
  intros H. destruct (reconcile_inv now raw m H) as [Hn ->].
  rewrite path_reconcile_value. split; intros Hs.
  - rewrite (finalResult_flattened now raw Hs), flattened_metadata.
    split.
    + intros Hm. rewrite (js_or_falsy _ (fallback_metadata now) Hm). repeat split.
    + intros Hm. exact (js_or_truthy _ _ Hm).
  - rewrite (finalResult_canonical now raw Hs).
    unfold field_metadata. apply opt_member_defined. exact Hn.
Qed.

(** [payload_flat] carries no metadata and gets the fallback. *)
Lemma metadata_by_path_witness :
  field_metadata (flattened_object noon payload_flat (get "result" payload_flat))
  = fallback_metadata noon
  /\ get "agent_name"
       (field_metadata
          (flattened_object noon payload_flat (get "result" payload_flat)))
     = VStr AGENT_NAME
  /\ get "timestamp"
       (field_metadata
          (flattened_object noon payload_flat (get "result" payload_flat)))
     = VStr noon.
Proof.
  exact (proj1 (proj1 (metadata_by_path noon payload_flat
    (Mapped (Some Flattened)
       (flattened_object noon payload_flat (get "result" payload_flat)))
    eq_refl) eq_refl) eq_refl).
Defined.

(** C8 fails as stated: [{result: {data: {}}}] carries no metadata and is
    mapped successfully (by Path 1), and the output has no metadata: neither
    an agent name nor a timestamp can be read from it. *)
Lemma metadata_absent_counterexample :
  exists out,
    reconcile noon payload_empty_data = Normal (Mapped (Some Canonical) out)
    /\ get "metadata" payload_empty_data = VUndef
    /\ field_metadata out = VUndef
    /\ field_metadata out <> fallback_metadata noon
    /\ opt_member (field_metadata out) "agent_name" = VUndef
    /\ opt_member (field_metadata out) "timestamp" = VUndef.
Proof. exists payload_empty_data. repeat split. discriminate. Qed.

(** ** The branch tests look at truthiness *)

Lemma get_result_insert (top : gmap string value) (x : value) :
  get "result" (VObj (<["result" := x]> top)) = x.
Proof. simpl. rewrite lookup_insert_eq. reflexivity. Qed.

Lemma truthy_get_insert_falsy (res : gmap string value) (k k' : string) (v : value) :
  truthy v = false ->
  truthy (get k' (VObj (<[k := v]> res))) = truthy (get k' (VObj (delete k res))).
Proof.
  intros Hv. simpl. destruct (decide (k = k')) as [->|Hne].
  - rewrite lookup_insert_eq, lookup_delete_eq. exact Hv.
  - rewrite lookup_insert_ne, lookup_delete_ne by exact Hne. reflexivity.
Qed.

Lemma select_insert_falsy (top res : gmap string value) (k : string) (v : value) :
  truthy v = false ->
  select (VObj (<["result" := VObj (<[k := v]> res)]> top))
  = select (VObj (<["result" := VObj (delete k res)]> top)).
Proof.
  intros Hv.
  unfold select, canonical_shape, flattened_shape, double_nested_shape, has_marker.
  rewrite !get_result_insert.
  rewrite !(opt_member_defined (VObj _) "data" eq_refl).
  rewrite !(truthy_get_insert_falsy res k _ v Hv).
  reflexivity.
Qed.

Lemma select_result_falsy (top : gmap string value) (v : value) :
  truthy v = false -> select (VObj (<["result" := v]> top)) = None.
Proof.
  intros Hv. unfold select, canonical_shape, flattened_shape, double_nested_shape.
  rewrite !get_result_insert, (opt_member_falsy v "data" Hv), Hv. reflexivity.
Qed.

(** C9.  Whether a branch is taken depends on the truthiness of the
    properties it tests and not on their presence: giving a property of
    [result] a falsy value selects the same branch as removing the property,
    and a falsy [result] selects none.  So [{result: {data: null}}],
    [{result: {data: 0, summary: "S"}}] and [{result: {scene_description: ""}}]
    take no branch, and the handler reports each as unparseable instead of
    showing a defaulted result. *)
Theorem selection_tests_truthiness (now : string) :
  (forall (top res : gmap string value) (k : string) (v : value),
     truthy v = false ->
     path_of (reconcile now (VObj (<["result" := VObj (<[k := v]> res)]> top)))
     = path_of (reconcile now (VObj (<["result" := VObj (delete k res)]> top)))
     /\ path_of (reconcile now (VObj (<["result" := v]> top))) = None)
  /\ (reconcile now payload_null_data = Normal (Mapped None VNull)
      /\ reconcile now payload_zero_data = Normal (Mapped None VNull)
      /\ reconcile now payload_empty_marker = Normal (Mapped None VNull))
  /\ (forall err st,
        error (handleAnalyze now (AgentResult true payload_null_data err) st)
        = Some PARSE_ERROR
        /\ error (handleAnalyze now (AgentResult true payload_zero_data err) st)
           = Some PARSE_ERROR
        /\ error (handleAnalyze now (AgentResult true payload_empty_marker err) st)
           = Some PARSE_ERROR).
Proof.
  split; [|split].
  - intros top res k v Hv. rewrite !path_of_reconcile. simpl nullish. cbv iota.
    split; [exact (select_insert_falsy top res k v Hv)|].
    exact (select_result_falsy top v Hv).
  - repeat split.
  - intros err st. repeat split.
Qed.

(** A [null] in [result.data] selects what an absent [result.data] selects:
    nothing. *)
Lemma selection_tests_truthiness_witness :
  path_of (reconcile noon (VObj (<["result" := VObj (<["data" := VNull]> ∅)]> ∅)))
  = path_of (reconcile noon (VObj (<["result" := VObj (delete "data" ∅)]> ∅)))
  /\ path_of (reconcile noon (VObj (<["result" := VNull]> ∅))) = None.
Proof.
  exact (proj1 (selection_tests_truthiness noon) ∅ ∅ "data" VNull eq_refl).
Defined.

(** ** [text_extracted] is not a marker *)

Lemma has_marker_insert_text (res : gmap string value) (t : value) :
  has_marker (VObj (<["text_extracted" := t]> res)) = has_marker (VObj res).
Proof.
  unfold has_marker. simpl. rewrite !lookup_insert_ne by discriminate.
  reflexivity.
Qed.

(** C10.  Line 239 does not test [text_extracted].  A payload whose [result]
    has no truthy marker ([scene_description], [objects_detected],
    [color_analysis], [mood_and_context]) and no truthy [data] takes no
    branch whatever its [text_extracted] is, in particular when
    [text_extracted] is the only property of [result]: the handler reports
    it as unparseable and shows no result carrying the text. *)
Theorem text_extracted_is_no_marker
    (now : string) (top res : gmap string value) (t : value) :
  has_marker (VObj res) = false ->
  truthy (get "data" (VObj res)) = false ->
  let raw := VObj (<["result" := VObj (<["text_extracted" := t]> res)]> top) in
  reconcile now raw = Normal (Mapped None VNull)
  /\ forall err st,
       let st' := handleAnalyze now (AgentResult true raw err) st in
       error st' = Some PARSE_ERROR
       /\ analysisResult st' = analysisResult st.
Proof.
  intros Hm Hd raw.
  assert (Hs : select raw = None).
  { unfold raw, select, canonical_shape, flattened_shape, double_nested_shape.
    rewrite !get_result_insert, has_marker_insert_text, Hm.
    rewrite (opt_member_defined (VObj _) "data" eq_refl).
    assert (Hd' : truthy (get "data" (VObj (<["text_extracted" := t]> res))) = false).
    { simpl. rewrite lookup_insert_ne by discriminate. exact Hd. }
    rewrite Hd'. simpl. rewrite !andb_false_r. reflexivity. }
  split.
  - rewrite (reconcile_normal now raw eq_refl), (finalResult_none now raw Hs).
    reflexivity.
  - intros err st st'. subst st'.
    rewrite (handleAnalyze_no_match now raw err st eq_refl Hs). split; reflexivity.
Qed.

(** [{result: {text_extracted: "hello"}}] takes no branch. *)
Lemma text_extracted_is_no_marker_witness :
  reconcile noon payload_text_only = Normal (Mapped None VNull)
  /\ forall err st,
       let st' := handleAnalyze noon (AgentResult true payload_text_only err) st in
       error st' = Some PARSE_ERROR
       /\ analysisResult st' = analysisResult st.
Proof.
  exact (text_extracted_is_no_marker noon ∅ ∅ (VStr "hello") eq_refl eq_refl).
Defined.

(** ** Splitting a data URL *)

Lemma split_on_nonempty (sep : Ascii.ascii) (s : string) : split_on sep s <> [].
Proof.
  destruct s as [|c rest]; simpl; [discriminate|].
  destruct (Ascii.eqb c sep); [discriminate|].
  destruct (split_on sep rest); discriminate.
Qed.

Lemma split_on_absent (sep : Ascii.ascii) (s : string) :
  occurs sep s = false -> split_on sep s = [s].
Proof.
  induction s as [|c rest IH]; simpl; [reflexivity|].
  intros H. apply orb_false_elim in H as [Hc Hrest].
  rewrite Hc, (IH Hrest). reflexivity.
Qed.

Lemma split_on_first (sep : Ascii.ascii) (a b : string) :
  occurs sep a = false ->
  split_on sep (a ++ String sep b) = a :: split_on sep b.
Proof.
  induction a as [|c rest IH]; simpl.
  - intros _. rewrite Ascii.eqb_refl. reflexivity.
  - intros H. apply orb_false_elim in H as [Hc Hrest].
    rewrite Hc, (IH Hrest). reflexivity.
Qed.

(** X1.  A data URL is cut at its commas and the second piece is kept: when
    neither the header nor the body holds a comma, [convertToBase64]
    resolves with the body, and whatever follows a further comma is
    dropped. *)
Theorem convertToBase64_takes_second_piece (header body : string) :
  occurs COMMA header = false ->
  occurs COMMA body = false ->
  convertToBase64 (Loaded (header ++ "," ++ body)) = Resolved (Some body)
  /\ forall rest,
       convertToBase64 (Loaded (header ++ "," ++ body ++ "," ++ rest))
       = Resolved (Some body).
Proof.
  intros Hh Hb. unfold convertToBase64. split.
  - change ("," ++ body) with (String COMMA body).
    rewrite (split_on_first COMMA header body Hh), (split_on_absent COMMA body Hb).
    reflexivity.
  - intros rest.
    change ("," ++ body ++ "," ++ rest) with (String COMMA (body ++ String COMMA rest)).
    rewrite (split_on_first COMMA header _ Hh), (split_on_first COMMA body rest Hb).
    reflexivity.
Qed.

Lemma convertToBase64_takes_second_piece_witness :
  convertToBase64 (Loaded ("data:image/png;base64" ++ "," ++ "iVBORw0KGgo="))
  = Resolved (Some "iVBORw0KGgo=")
  /\ forall rest,
       convertToBase64
         (Loaded ("data:image/png;base64" ++ "," ++ "iVBORw0KGgo=" ++ "," ++ rest))
       = Resolved (Some "iVBORw0KGgo=").
Proof.
  exact (convertToBase64_takes_second_piece "data:image/png;base64" "iVBORw0KGgo="
           eq_refl eq_refl).
Defined.

(** ** Selecting a file *)

Lemma handleFileSelect_valid (f : file) (url : string) (read : read_outcome)
    (w : page) :
  includes validTypes (file_type f) = true ->
  (file_size f <= MAX_SIZE)%N ->
  handleFileSelect f url read w
  = match convertToBase64 read with
    | Resolved b =>
        Page (Some (ImageData f url b)) (isDragging w) (useSampleData w)
             (setAnalysisResult VNull (setError None (core w)))
             ({[ url ]} ∪ liveUrls w)
    | Rejected _ =>
        Page (imageData w) (isDragging w) (useSampleData w)
             (setError (Some PROCESS_ERROR) (setError None (core w)))
             ({[ url ]} ∪ liveUrls w)
    end.
Proof.
  intros Ht Hs. unfold handleFileSelect. rewrite Ht.
  apply N.ltb_ge in Hs. rewrite Hs. cbv beta iota zeta delta [negb].
  destruct (convertToBase64 read); reflexivity.
Qed.

(** X2.  A file is taken when its type is one of the four listed, its size
    is at most 10 * 1024 * 1024 bytes (the bound itself included) and it
    could be read: it becomes the held image with the object URL made for
    it, the shown result is reset, no error is left, and everything else
    stays.  A data URL without a comma is no error either: the image is
    held with [base64] undefined. *)
Theorem handleFileSelect_accepts (f : file) (url dataUrl : string) (w : page) :
  includes validTypes (file_type f) = true ->
  (file_size f <= MAX_SIZE)%N ->
  let w' := handleFileSelect f url (Loaded dataUrl) w in
  imageData w' = Some (ImageData f url (split_on COMMA dataUrl !! 1%nat))
  /\ analysisResult (core w') = VNull
  /\ error (core w') = None
  /\ liveUrls w' = {[ url ]} ∪ liveUrls w
  /\ rawResponse (core w') = rawResponse (core w)
  /\ showDebug (core w') = showDebug (core w)
  /\ useSampleData w' = useSampleData w
  /\ (occurs COMMA dataUrl = false ->
      imageData w' = Some (ImageData f url None)).
Proof.
  intros Ht Hs w'. subst w'.
  rewrite (handleFileSelect_valid f url _ w Ht Hs). simpl.
  repeat split. intros Hc. rewrite (split_on_absent COMMA dataUrl Hc). reflexivity.
Qed.

(** A PNG of exactly 10 MiB is taken. *)
Lemma handleFileSelect_accepts_witness :
  imageData (handleFileSelect (File "a.png" "image/png" 10485760) "blob:1"
               (Loaded "data:image/png;base64,AAAA") initial_page)
  = Some (ImageData (File "a.png" "image/png" 10485760) "blob:1" (Some "AAAA")).
Proof.
  exact (proj1 (handleFileSelect_accepts (File "a.png" "image/png" 10485760)
                  "blob:1" "data:image/png;base64,AAAA" initial_page
                  eq_refl ltac:(compute; discriminate))).
Defined.

(** X3.  A file of another type, or of more than 10 * 1024 * 1024 bytes, is
    refused before anything is read: the held image, the shown result and
    the object URLs stay as they were, and the error names the reason, the
    type first. *)
Theorem handleFileSelect_rejects (f : file) (url : string) (read : read_outcome)
    (w : page) :
  includes validTypes (file_type f) = false \/ (MAX_SIZE < file_size f)%N ->
  let w' := handleFileSelect f url read w in
  imageData w' = imageData w
  /\ analysisResult (core w') = analysisResult (core w)
  /\ liveUrls w' = liveUrls w
  /\ error (core w')
     = Some (if includes validTypes (file_type f) then SIZE_ERROR else TYPE_ERROR).
Proof.
  intros H w'. subst w'. unfold handleFileSelect.
  destruct (includes validTypes (file_type f)) eqn:Ht;
    cbv beta iota zeta delta [negb].
  - destruct H as [H|H]; [discriminate|].
    apply N.ltb_lt in H. rewrite H. repeat split.
  - repeat split.
Qed.

(** One byte over the bound is refused, and so is a type in upper case. *)
Lemma handleFileSelect_rejects_witness :
  error (core (handleFileSelect (File "a.png" "image/png" 10485761) "blob:1"
                 (Loaded "data:image/png;base64,AAAA") initial_page))
  = Some SIZE_ERROR
  /\ error (core (handleFileSelect (File "a.png" "IMAGE/PNG" 1) "blob:1"
                    (Loaded "data:image/png;base64,AAAA") initial_page))
     = Some TYPE_ERROR.
Proof.
  split.
  - exact (proj2 (proj2 (proj2 (handleFileSelect_rejects
      (File "a.png" "image/png" 10485761) "blob:1"
      (Loaded "data:image/png;base64,AAAA") initial_page
      (or_intror eq_refl))))).
  - exact (proj2 (proj2 (proj2 (handleFileSelect_rejects
      (File "a.png" "IMAGE/PNG" 1) "blob:1"
      (Loaded "data:image/png;base64,AAAA") initial_page
      (or_introl eq_refl))))).
Defined.

(** ** Object URLs *)

Lemma url_added (url : string) (live : gset string) : url ∈ {[ url ]} ∪ live.
Proof. apply elem_of_union. left. apply elem_of_singleton. reflexivity. Qed.

Lemma url_kept (url other : string) (live : gset string) :
  url ∈ live -> url ∈ {[ other ]} ∪ live.
Proof. intros H. apply elem_of_union. right. exact H. Qed.

Lemma url_survives (url other : string) (live : gset string) :
  url ∈ live -> other <> url -> url ∈ live ∖ {[ other ]}.
Proof.
  intros H Hne. apply elem_of_difference. split; [exact H|].
  rewrite elem_of_singleton. congruence.
Qed.

Lemma url_revoked (url : string) (live : gset string) : url ∉ live ∖ {[ url ]}.
Proof.
  rewrite elem_of_difference, elem_of_singleton. intros [_ H]. apply H. reflexivity.
Qed.

Lemma select_start_cases (f : file) (url : string) (w : page) :
  imageData (fst (select_start f url w)) = imageData w
  /\ ((snd (select_start f url w) = None
       /\ liveUrls (fst (select_start f url w)) = liveUrls w)
      \/ (snd (select_start f url w) = Some (Reading f url)
          /\ liveUrls (fst (select_start f url w)) = {[ url ]} ∪ liveUrls w)).
Proof.
  unfold select_start.
  destruct (negb (includes validTypes (file_type f)));
    [split; [reflexivity | left; split; reflexivity]|].
  destruct (MAX_SIZE <? file_size f)%N;
    [split; [reflexivity | left; split; reflexivity]|].
  split; [reflexivity | right; split; reflexivity].
Qed.

(** Run without anything in between, the two halves of [handleFileSelect]
    are the handler. *)
Lemma handleFileSelect_phases (f : file) (url : string) (read : read_outcome)
    (w : page) :
  handleFileSelect f url read w
  = match snd (select_start f url w) with
    | Some _ => select_settled f url read (fst (select_start f url w))
    | None => fst (select_start f url w)
    end.
Proof.
  unfold handleFileSelect, select_start, select_settled.
  destruct (negb (includes validTypes (file_type f))); [reflexivity|].
  destruct (MAX_SIZE <? file_size f)%N; reflexivity.
Qed.

Lemma handleAnalyze_answered (now : string) (result : agent_result) (st : ui) :
  handleAnalyze now result st
  = agent_answered now result (setError None (setIsAnalyzing true st)).
Proof. reflexivity. Qed.

(** Run without anything in between, the three parts of [handleAnalyze] are
    the handler. *)
Lemma handleAnalyze_run_phases now uploadFiles callAIAgent (w : page) :
  fst (handleAnalyze_run now uploadFiles callAIAgent w)
  = match snd (analyze_start w) with
    | Some (Uploading f) =>
        let uploaded := upload_settled (uploadFiles f) (fst (analyze_start w)) in
        match snd uploaded with
        | Some (Asking assets) =>
            agent_settled now (callAIAgent PROMPT AGENT_ID assets) (fst uploaded)
        | _ => fst uploaded
        end
    | _ => fst (analyze_start w)
    end.
Proof.
  unfold handleAnalyze_run, analyze_start.
  destruct (imageData w) as [img|]; [|reflexivity]. simpl.
  destruct (uploadFiles (image_file img)) as [[[[|id ids]|]]|r]; try reflexivity.
  simpl. destruct (callAIAgent PROMPT AGENT_ID (id :: ids)); reflexivity.
Qed.

(** A drop, or a change of the file input, whose read settles before
    anything else happens is one run of the handler. *)
Lemma handleDrop_steps (files : list file) (url : string) (read : read_outcome)
    (w : page) :
  shown (steps (Session w []) [Drop files url; ReadSettled 0 read])
  = handleDrop files url read w.
Proof.
  unfold handleDrop. destruct files as [|f files]; [reflexivity|].
  rewrite handleFileSelect_phases. simpl.
  destruct (snd (select_start f url (setIsDragging false w))) as [op|] eqn:Ho;
    [|reflexivity].
  destruct (select_start_cases f url (setIsDragging false w))
    as [_ [[Hn _]|[Hs _]]]; [congruence|].
  rewrite Ho in Hs. injection Hs as ->. reflexivity.
Qed.

Lemma handleFileInputChange_steps (files : list file) (url : string)
    (read : read_outcome) (w : page) :
  shown (steps (Session w []) [FileInputChange files url; ReadSettled 0 read])
  = handleFileInputChange files url read w.
Proof.
  unfold handleFileInputChange. destruct files as [|f files]; [reflexivity|].
  rewrite handleFileSelect_phases. simpl.
  destruct (snd (select_start f url w)) as [op|] eqn:Ho; [|reflexivity].
  destruct (select_start_cases f url w) as [_ [[Hn _]|[Hs _]]]; [congruence|].
  rewrite Ho in Hs. injection Hs as ->. reflexivity.
Qed.

Lemma analyze_start_frame (w : page) :
  imageData (fst (analyze_start w)) = imageData w
  /\ liveUrls (fst (analyze_start w)) = liveUrls w
  /\ urls_in_flight (started (snd (analyze_start w)) []) = [].
Proof.
  unfold analyze_start. destruct (imageData w) eqn:Hi; repeat split; exact Hi.
Qed.

Lemma upload_settled_frame (r : settled upload_result) (w : page) :
  imageData (fst (upload_settled r w)) = imageData w
  /\ liveUrls (fst (upload_settled r w)) = liveUrls w
  /\ urls_in_flight (started (snd (upload_settled r w)) []) = [].
Proof.
  unfold upload_settled. destruct r as [[[[|id ids]|]]|e]; repeat split.
Qed.

Lemma agent_settled_frame (now : string) (r : settled agent_result) (w : page) :
  imageData (agent_settled now r w) = imageData w
  /\ liveUrls (agent_settled now r w) = liveUrls w.
Proof. unfold agent_settled. destruct r; split; reflexivity. Qed.

Lemma revoke_preview_urls (w : page) :
  imageData (revoke_preview w) = imageData w
  /\ (liveUrls (revoke_preview w) = liveUrls w
      \/ exists img, imageData w = Some img
                     /\ liveUrls (revoke_preview w) = liveUrls w ∖ {[ preview img ]}).
Proof.
  unfold revoke_preview. destruct (imageData w) as [img|] eqn:Hi.
  - destruct (String.eqb (preview img) ""); simpl.
    + split; [by rewrite Hi | left; reflexivity].
    + split; [by rewrite Hi | right; exists img; split; reflexivity].
  - split; [by rewrite Hi | left; reflexivity].
Qed.

Lemma urls_in_flight_started (o : option pending_op) (l : list pending_op) :
  urls_in_flight (started o l)
  = (urls_in_flight l ++ urls_in_flight (started o []))%list.
Proof.
  destruct o as [op|]; unfold started, urls_in_flight.
  - apply omap_app.
  - symmetry. apply app_nil_r.
Qed.

Lemma urls_in_flight_delete (l : list pending_op) (i : nat) (op : pending_op) :
  l !! i = Some op ->
  urls_in_flight l ≡ₚ (urls_in_flight [op] ++ urls_in_flight (delete i l))%list.
Proof.
  intros H. unfold urls_in_flight.
  rewrite (delete_Permutation l i op H) at 1.
  change (op :: delete i l) with ([op] ++ delete i l)%list.
  rewrite omap_app. reflexivity.
Qed.

(** The invariant over its parts, so that each step can say what it does to
    the held image, to the reads in flight and to the live URLs. *)
Lemma urls_in_use_live_intro (w : page) (l : list pending_op) :
  NoDup (held_url w ++ urls_in_flight l)%list ->
  (forall url, url ∈ (held_url w ++ urls_in_flight l)%list -> url ∈ liveUrls w) ->
  urls_in_use_live (Session w l).
Proof. intros H1 H2. split; assumption. Qed.

Lemma urls_in_use_live_same (w w' : page) (l l' : list pending_op) :
  imageData w' = imageData w ->
  liveUrls w' = liveUrls w ->
  urls_in_flight l' ≡ₚ urls_in_flight l ->
  urls_in_use_live (Session w l) -> urls_in_use_live (Session w' l').
Proof.
  intros Hi Hl Hp [Hnd Hlive]. unfold urls_in_use_live, urls_in_use in *.
  simpl in *. unfold held_url in *. rewrite Hi, Hl. split.
  - rewrite Hp. exact Hnd.
  - intros url Hu. rewrite Hp in Hu. exact (Hlive url Hu).
Qed.

Lemma urls_in_use_live_fewer (w w' : page) (l l' : list pending_op)
    (gone : list string) :
  imageData w' = imageData w ->
  liveUrls w' = liveUrls w ->
  urls_in_flight l ≡ₚ (gone ++ urls_in_flight l')%list ->
  urls_in_use_live (Session w l) -> urls_in_use_live (Session w' l').
Proof.
  intros Hi Hl Hp [Hnd Hlive]. unfold urls_in_use_live, urls_in_use in *.
  simpl in *. unfold held_url in *. rewrite Hi, Hl. rewrite Hp in Hnd.
  split.
  - apply NoDup_app in Hnd as (Hh & Hdis & Hf).
    apply NoDup_app in Hf as (_ & _ & Hf).
    apply NoDup_app. split; [exact Hh|]. split; [|exact Hf].
    intros url Hu Hin. apply (Hdis url Hu). apply elem_of_app. right. exact Hin.
  - intros url Hu. apply Hlive. rewrite Hp.
    apply elem_of_app in Hu as [Hu|Hu];
      apply elem_of_app; [left; exact Hu | right].
    apply elem_of_app. right. exact Hu.
Qed.

Lemma select_start_keeps_in_use (f : file) (url : string) (w : page)
    (l : list pending_op) :
  url ∉ liveUrls w ->
  urls_in_use_live (Session w l) ->
  urls_in_use_live (Session (fst (select_start f url w))
                            (started (snd (select_start f url w)) l)).
Proof.
  intros Hfresh H.
  destruct (select_start_cases f url w) as [Hi [[Ho Hl]|[Ho Hl]]]; rewrite Ho.
  - apply (urls_in_use_live_same w _ l l Hi Hl); [reflexivity | exact H].
  - destruct H as [Hnd Hlive]. unfold urls_in_use in Hnd, Hlive. simpl in Hnd, Hlive.
    apply urls_in_use_live_intro; unfold held_url in *; rewrite Hi, ?Hl;
      rewrite urls_in_flight_started; simpl; rewrite app_assoc.
    + apply NoDup_app. split; [exact Hnd|]. split; [|apply NoDup_singleton].
      intros u Hu Hin. apply list_elem_of_singleton in Hin as ->.
      apply Hfresh. apply Hlive. exact Hu.
    + intros u Hu. apply elem_of_app in Hu as [Hu|Hu].
      * apply url_kept. apply Hlive. exact Hu.
      * apply list_elem_of_singleton in Hu as ->. apply url_added.
Qed.

Lemma removal_keeps_in_use (w w' : page) (l : list pending_op) :
  imageData w' = None ->
  (liveUrls w' = liveUrls w
   \/ exists img, imageData w = Some img
                  /\ liveUrls w' = liveUrls w ∖ {[ preview img ]}) ->
  urls_in_use_live (Session w l) -> urls_in_use_live (Session w' l).
Proof.
  intros Hi Hl [Hnd Hlive]. unfold urls_in_use in Hnd, Hlive. simpl in Hnd, Hlive.
  apply urls_in_use_live_intro; unfold held_url; rewrite Hi; simpl.
  - apply NoDup_app in Hnd as (_ & _ & Hf). exact Hf.
  - intros u Hu.
    assert (Hin : u ∈ liveUrls w) by (apply Hlive, elem_of_app; right; exact Hu).
    destruct Hl as [-> | (img & Himg & ->)]; [exact Hin|].
    apply url_survives; [exact Hin|].
    unfold held_url in Hnd. rewrite Himg in Hnd.
    apply NoDup_app in Hnd as (_ & Hdis & _).
    intros Heq. apply (Hdis u); [apply list_elem_of_singleton; congruence | exact Hu].
Qed.

Lemma step_keeps_urls_in_use (s : session) (a : action) :
  (forall url, url ∈ action_urls a -> url ∉ liveUrls (shown s)) ->
  urls_in_use_live s -> urls_in_use_live (step s a).
Proof.
  destruct s as [w l]. intros Hfresh H. destruct a; simpl in *.
  - exact H.
  - exact H.
  - destruct files as [|f files]; [exact H|].
    apply select_start_keeps_in_use; [|exact H].
    apply (Hfresh url). apply list_elem_of_singleton. reflexivity.
  - destruct files as [|f files]; [exact H|].
    apply select_start_keeps_in_use; [|exact H].
    apply Hfresh. apply list_elem_of_singleton. reflexivity.
  - destruct (analyze_start_frame w) as (Hi & Hl & Hs).
    apply (urls_in_use_live_same w _ l _ Hi Hl); [|exact H].
    rewrite urls_in_flight_started, Hs, app_nil_r. reflexivity.
  - apply (removal_keeps_in_use w); [reflexivity | | exact H].
    unfold handleClearAll. simpl. apply revoke_preview_urls.
  - apply (removal_keeps_in_use w); [reflexivity | | exact H].
    unfold handleRemoveImage. simpl. apply revoke_preview_urls.
  - exact H.
  - exact H.
  - destruct (l !! i) as [[f url| |]|] eqn:Hop; try exact H.
    pose proof (urls_in_flight_delete l i _ Hop) as Hp. simpl in Hp.
    unfold select_settled. destruct (convertToBase64 read) as [b|e].
    + destruct H as [Hnd Hlive]. unfold urls_in_use in Hnd, Hlive.
      simpl in Hnd, Hlive. rewrite Hp in Hnd.
      apply urls_in_use_live_intro; simpl.
      * apply NoDup_app in Hnd as (_ & _ & Hf). exact Hf.
      * intros u Hu. apply Hlive. rewrite Hp. apply elem_of_app. right. exact Hu.
    + apply (urls_in_use_live_fewer w _ l _ [url]); [reflexivity.. | exact Hp | exact H].
  - destruct (l !! i) as [[| f |]|] eqn:Hop; try exact H.
    pose proof (urls_in_flight_delete l i _ Hop) as Hp. simpl in Hp.
    destruct (upload_settled_frame r w) as (Hi & Hl & Hs).
    apply (urls_in_use_live_same w _ l _ Hi Hl); [|exact H].
    rewrite urls_in_flight_started, Hs, app_nil_r. symmetry. exact Hp.
  - destruct (l !! i) as [[| |assets]|] eqn:Hop; try exact H.
    pose proof (urls_in_flight_delete l i _ Hop) as Hp. simpl in Hp.
    destruct (agent_settled_frame now r w) as (Hi & Hl).
    apply (urls_in_use_live_same w _ l _ Hi Hl); [|exact H].
    symmetry. exact Hp.
Qed.

Lemma steps_keep_urls_in_use (acts : list action) (s : session) :
  fresh_urls s acts -> urls_in_use_live s -> urls_in_use_live (steps s acts).
Proof.
  revert s. induction acts as [|a acts IH]; intros s Hf H; [exact H|].
  destruct Hf as [Ha Hf]. apply (IH (step s a) Hf).
  apply step_keeps_urls_in_use; assumption.
Qed.

Lemma initial_urls_in_use : urls_in_use_live initial_session.
Proof.
  split; [apply NoDup_nil; exact I|].
  intros url H. apply not_elem_of_nil in H. destruct H.
Qed.

Lemma urls_in_use_preview_live (s : session) :
  urls_in_use_live s -> preview_live (shown s).
Proof.
  intros [_ Hlive]. unfold preview_live, urls_in_use, held_url in *.
  destruct (imageData (shown s)) as [img|]; [|exact I].
  apply Hlive. apply elem_of_app. left. apply list_elem_of_singleton. reflexivity.
Qed.

(** X4.  In every state the page reaches from its mounted state, by handlers
    the user starts and by resumptions of handlers whose read, upload or
    agent call has settled, interleaved in any order, the preview of the
    held image is an object URL that has not been revoked, and so is the
    URL of every read still in flight; these URLs are pairwise distinct.
    The one assumption is the browser's: it never hands out an object URL
    that is live. *)
Theorem preview_stays_live (acts : list action) :
  fresh_urls initial_session acts ->
  preview_live (shown (steps initial_session acts))
  /\ urls_in_use_live (steps initial_session acts).
Proof.
  intros Hf.
  pose proof (steps_keep_urls_in_use acts initial_session Hf initial_urls_in_use)
    as H.
  split; [apply urls_in_use_preview_live|]; exact H.
Qed.

(** Two files picked one after the other, the second read settling first
    and its image removed again before the first read settles: the first
    file ends up held, and its preview is live. *)
Lemma preview_stays_live_witness :
  preview_live (shown (steps initial_session
    [FileInputChange [File "a.png" "image/png" 10] "blob:1";
     Drop [File "b.gif" "image/gif" 20] "blob:2";
     ReadSettled 1 (Loaded "data:image/gif;base64,BBBB");
     RemoveImage;
     ReadSettled 0 (Loaded "data:image/png;base64,AAAA")]))
  /\ urls_in_use_live (steps initial_session
    [FileInputChange [File "a.png" "image/png" 10] "blob:1";
     Drop [File "b.gif" "image/gif" 20] "blob:2";
     ReadSettled 1 (Loaded "data:image/gif;base64,BBBB");
     RemoveImage;
     ReadSettled 0 (Loaded "data:image/png;base64,AAAA")]).
Proof.
  apply preview_stays_live. simpl.
  repeat split; intros url Hin; try (apply not_elem_of_nil in Hin; destruct Hin);
    apply list_elem_of_singleton in Hin; subst url;
    apply (bool_decide_unpack _); vm_compute; reflexivity.
Defined.

(** X5.  Removing the image, by either button, revokes its preview and no
    other URL, and leaves no image held. *)
Theorem removal_revokes_preview (w : page) (img : image_data) :
  imageData w = Some img ->
  preview img <> "" ->
  liveUrls (handleRemoveImage w) = (liveUrls w ∖ {[ preview img ]})
  /\ liveUrls (handleClearAll w) = (liveUrls w ∖ {[ preview img ]})
  /\ (preview img ∉ liveUrls (handleRemoveImage w))
  /\ (preview img ∉ liveUrls (handleClearAll w))
  /\ imageData (handleRemoveImage w) = None
  /\ imageData (handleClearAll w) = None.
Proof.
  intros Hi Hp. apply String.eqb_neq in Hp.
  unfold handleRemoveImage, handleClearAll, revoke_preview.
  rewrite Hi, Hp. simpl. repeat split; apply url_revoked.
Qed.

Lemma removal_revokes_preview_witness :
  liveUrls (handleRemoveImage
              (Page (Some (ImageData (File "a.png" "image/png" 10) "blob:1" None))
                    false false initial_ui {[ "blob:1" ]}))
  = ({[ "blob:1" ]} : gset string) ∖ {[ "blob:1" ]}.
Proof.
  exact (proj1 (removal_revokes_preview
    (Page (Some (ImageData (File "a.png" "image/png" 10) "blob:1" None))
          false false initial_ui {[ "blob:1" ]})
    (ImageData (File "a.png" "image/png" 10) "blob:1" None)
    eq_refl ltac:(discriminate))).
Defined.

Lemma fresh_urls_app (acts1 acts2 : list action) (s : session) :
  fresh_urls s (acts1 ++ acts2)%list ->
  fresh_urls s acts1 /\ fresh_urls (steps s acts1) acts2.
Proof.
  revert s. induction acts1 as [|a acts1 IH]; intros s H; [split; [exact I | exact H]|].
  destruct H as [Ha H]. destruct (IH (step s a) H) as [H1 H2].
  split; [split; assumption | exact H2].
Qed.

Lemma leaked_same (url : string) (w w' : page) (l l' : list pending_op) :
  imageData w' = imageData w ->
  liveUrls w' = liveUrls w ->
  urls_in_flight l' ≡ₚ urls_in_flight l ->
  leaked url (Session w l) -> leaked url (Session w' l').
Proof.
  intros Hi Hl Hp [Hlive Hnot]. unfold leaked, urls_in_use, held_url in *.
  simpl in *. rewrite Hi, Hl, Hp. split; assumption.
Qed.

Lemma select_start_keeps_leaked (leak : string) (f : file) (url : string)
    (w : page) (l : list pending_op) :
  url ∉ liveUrls w ->
  leaked leak (Session w l) ->
  leaked leak (Session (fst (select_start f url w))
                       (started (snd (select_start f url w)) l)).
Proof.
  intros Hfresh H.
  destruct (select_start_cases f url w) as [Hi [[Ho Hl]|[Ho Hl]]]; rewrite Ho.
  - apply (leaked_same leak w _ l l Hi Hl); [reflexivity | exact H].
  - destruct H as [Hlive Hnot]. unfold leaked, urls_in_use, held_url in *.
    cbn [shown pending] in *.
    rewrite Hi, Hl, urls_in_flight_started. simpl. rewrite app_assoc.
    split; [apply url_kept; exact Hlive|].
    intros Hin. apply elem_of_app in Hin as [Hin|Hin]; [exact (Hnot Hin)|].
    apply list_elem_of_singleton in Hin as ->. exact (Hfresh Hlive).
Qed.

Lemma removal_keeps_leaked (leak : string) (w w' : page) (l : list pending_op) :
  imageData w' = None ->
  (liveUrls w' = liveUrls w
   \/ exists img, imageData w = Some img
                  /\ liveUrls w' = liveUrls w ∖ {[ preview img ]}) ->
  leaked leak (Session w l) -> leaked leak (Session w' l).
Proof.
  intros Hi Hl [Hlive Hnot]. unfold leaked, urls_in_use, held_url in *.
  simpl in *. rewrite Hi. simpl. split.
  - destruct Hl as [-> | (img & Himg & ->)]; [exact Hlive|].
    apply url_survives; [exact Hlive|].
    intros Heq. apply Hnot. rewrite Himg. apply elem_of_app. left.
    apply list_elem_of_singleton. symmetry. exact Heq.
  - intros Hin. apply Hnot. apply elem_of_app. right. exact Hin.
Qed.

Lemma step_keeps_leaked (leak : string) (s : session) (a : action) :
  (forall url, url ∈ action_urls a -> url ∉ liveUrls (shown s)) ->
  leaked leak s -> leaked leak (step s a).
Proof.
  destruct s as [w l]. intros Hfresh H. destruct a; simpl in *.
  - exact H.
  - exact H.
  - destruct files as [|f files]; [exact H|].
    apply select_start_keeps_leaked; [|exact H].
    apply (Hfresh url). apply list_elem_of_singleton. reflexivity.
  - destruct files as [|f files]; [exact H|].
    apply select_start_keeps_leaked; [|exact H].
    apply Hfresh. apply list_elem_of_singleton. reflexivity.
  - destruct (analyze_start_frame w) as (Hi & Hl & Hs).
    apply (leaked_same leak w _ l _ Hi Hl); [|exact H].
    rewrite urls_in_flight_started, Hs, app_nil_r. reflexivity.
  - apply (removal_keeps_leaked leak w); [reflexivity | | exact H].
    unfold handleClearAll. simpl. apply revoke_preview_urls.
  - apply (removal_keeps_leaked leak w); [reflexivity | | exact H].
    unfold handleRemoveImage. simpl. apply revoke_preview_urls.
  - exact H.
  - exact H.
  - destruct (l !! i) as [[f url| |]|] eqn:Hop; try exact H.
    pose proof (urls_in_flight_delete l i _ Hop) as Hp. simpl in Hp.
    destruct H as [Hlive Hnot]. unfold urls_in_use in Hnot. simpl in Hnot.
    rewrite Hp in Hnot.
    unfold select_settled. destruct (convertToBase64 read) as [b|e];
      (split; [exact Hlive|]); unfold urls_in_use; simpl.
    + exact (fun Hin => Hnot ltac:(apply elem_of_app; right; exact Hin)).
    + intros Hin. apply Hnot. apply elem_of_app in Hin as [Hin|Hin];
        apply elem_of_app; [left; exact Hin | right].
      apply list_elem_of_further. exact Hin.
  - destruct (l !! i) as [[| f |]|] eqn:Hop; try exact H.
    pose proof (urls_in_flight_delete l i _ Hop) as Hp. simpl in Hp.
    destruct (upload_settled_frame r w) as (Hi & Hl & Hs).
    apply (leaked_same leak w _ l _ Hi Hl); [|exact H].
    rewrite urls_in_flight_started, Hs, app_nil_r. symmetry. exact Hp.
  - destruct (l !! i) as [[| |assets]|] eqn:Hop; try exact H.
    pose proof (urls_in_flight_delete l i _ Hop) as Hp. simpl in Hp.
    destruct (agent_settled_frame now r w) as (Hi & Hl).
    apply (leaked_same leak w _ l _ Hi Hl); [|exact H].
    symmetry. exact Hp.
Qed.

Lemma steps_keep_leaked (leak : string) (acts : list action) (s : session) :
  fresh_urls s acts -> leaked leak s -> leaked leak (steps s acts).
Proof.
  revert s. induction acts as [|a acts IH]; intros s Hf H; [exact H|].
  destruct Hf as [Ha Hf]. apply (IH (step s a) Hf).
  apply step_keeps_leaked; assumption.
Qed.

(** X6.  When the read of a picked file fails, the object URL made for it
    before the read is lost: the handler sets ['Failed to process image'],
    leaves the held image as it is, and from then on the URL stays live
    while the page has no use for it, whatever handlers are started and
    whatever calls settle afterwards, in any order.  This holds in every
    state the page reaches from its mounted state; the one assumption is
    that the browser never hands out an object URL that is live. *)
Theorem failed_read_leaks_url (before after : list action) (i : nat)
    (f : file) (url : string) :
  fresh_urls initial_session (before ++ ReadSettled i ReadError :: after)%list ->
  pending (steps initial_session before) !! i = Some (Reading f url) ->
  let failed := step (steps initial_session before) (ReadSettled i ReadError) in
  error (core (shown failed)) = Some PROCESS_ERROR
  /\ imageData (shown failed) = imageData (shown (steps initial_session before))
  /\ leaked url failed
  /\ leaked url
       (steps initial_session (before ++ ReadSettled i ReadError :: after)%list).
Proof.
  intros Hf Hop failed.
  apply fresh_urls_app in Hf as [Hb Hf]. destruct Hf as [_ Ha].
  pose proof (steps_keep_urls_in_use before initial_session Hb initial_urls_in_use)
    as [Hnd Hlive].
  assert (Hfailed : failed
    = Session (with_core (setError (Some PROCESS_ERROR))
                 (shown (steps initial_session before)))
              (delete i (pending (steps initial_session before)))).
  { subst failed. simpl. rewrite Hop. reflexivity. }
  assert (Hleak : leaked url failed).
  { rewrite Hfailed. unfold urls_in_use in Hnd, Hlive.
    pose proof (urls_in_flight_delete _ i _ Hop) as Hp. simpl in Hp.
    rewrite Hp in Hnd. split; simpl.
    - apply Hlive. rewrite Hp. apply elem_of_app. right. apply list_elem_of_here.
    - unfold urls_in_use. simpl.
      apply NoDup_app in Hnd as (_ & Hdis & Hf).
      apply NoDup_cons in Hf as [Hnot _].
      intros Hin. apply elem_of_app in Hin as [Hin|Hin]; [|exact (Hnot Hin)].
      apply (Hdis url Hin). apply list_elem_of_here. }
  split; [rewrite Hfailed; reflexivity|].
  split; [rewrite Hfailed; reflexivity|].
  split; [exact Hleak|].
  unfold steps. rewrite foldl_app. simpl.
  apply steps_keep_leaked; assumption.
Qed.

(** A read that fails while another file is being read: its URL is still
    live after the other file was taken and removed again and everything
    was cleared. *)
Lemma failed_read_leaks_url_witness :
  leaked "blob:1" (steps initial_session
    ([FileInputChange [File "a.png" "image/png" 10] "blob:1";
      Drop [File "b.gif" "image/gif" 20] "blob:2"]
     ++ ReadSettled 0 ReadError
     :: [ReadSettled 0 (Loaded "data:image/gif;base64,BBBB");
         RemoveImage; ClearAll])%list).
Proof.
  refine (proj2 (proj2 (proj2 (failed_read_leaks_url
    [FileInputChange [File "a.png" "image/png" 10] "blob:1";
     Drop [File "b.gif" "image/gif" 20] "blob:2"]
    [ReadSettled 0 (Loaded "data:image/gif;base64,BBBB"); RemoveImage; ClearAll]
    0 (File "a.png" "image/png" 10) "blob:1" _ eq_refl)))).
  simpl.
  repeat split; intros url Hin; try (apply not_elem_of_nil in Hin; destruct Hin);
    apply list_elem_of_singleton in Hin; subst url;
    apply (bool_decide_unpack _); vm_compute; reflexivity.
Defined.

(** ** A whole run of [handleAnalyze] *)

(** X7.  The agent is called only for a held image whose upload resolved
    with at least one asset id, and then with the fixed prompt, the fixed
    agent id and exactly the ids the upload returned. *)
Theorem agent_called_with_uploaded_assets now uploadFiles callAIAgent
    (w : page) (prompt agent_id : string) (assets : list string) :
  In (CallAIAgent prompt agent_id assets)
     (snd (handleAnalyze_run now uploadFiles callAIAgent w)) ->
  exists img,
    imageData w = Some img
    /\ uploadFiles (image_file img) = Resolved (UploadResult (Some assets))
    /\ assets <> []
    /\ prompt = PROMPT
    /\ agent_id = AGENT_ID
    /\ snd (handleAnalyze_run now uploadFiles callAIAgent w)
       = [UploadFiles (image_file img); CallAIAgent PROMPT AGENT_ID assets].
Proof.
  unfold handleAnalyze_run.
  destruct (imageData w) as [img|]; [|intros []].
  destruct (uploadFiles (image_file img)) as [[[[|id ids]|]]|r] eqn:Hu; simpl;
    try (intros [H|[]]; discriminate H).
  assert (Hcalls :
    snd (match callAIAgent PROMPT AGENT_ID (id :: ids) with
         | Resolved result =>
             (with_core (handleAnalyze now result) w,
              [UploadFiles (image_file img);
               CallAIAgent PROMPT AGENT_ID (id :: ids)])
         | Rejected r =>
             (with_core
                (fun _ => catch_finally r
                            (setError None (setIsAnalyzing true (core w)))) w,
              [UploadFiles (image_file img);
               CallAIAgent PROMPT AGENT_ID (id :: ids)])
         end)
    = [UploadFiles (image_file img); CallAIAgent PROMPT AGENT_ID (id :: ids)])
    by (destruct (callAIAgent PROMPT AGENT_ID (id :: ids)); reflexivity).
  rewrite Hcalls. intros [H|[H|[]]]; [discriminate H|].
  injection H as <- <- <-. exists img. repeat split; [exact Hu | discriminate].
Qed.

Lemma agent_called_with_uploaded_assets_witness :
  exists img,
    imageData (Page (Some (ImageData (File "a.png" "image/png" 10) "blob:1" None))
                    false false initial_ui {[ "blob:1" ]}) = Some img
    /\ (fun _ : file => Resolved (UploadResult (Some ["asset-1"]))) (image_file img)
       = Resolved (UploadResult (Some ["asset-1"]))
    /\ ["asset-1"] <> []
    /\ PROMPT = PROMPT
    /\ AGENT_ID = AGENT_ID
    /\ snd (handleAnalyze_run noon
              (fun _ => Resolved (UploadResult (Some ["asset-1"])))
              (fun _ _ _ => Resolved (AgentResult true payload_flat None))
              (Page (Some (ImageData (File "a.png" "image/png" 10) "blob:1" None))
                    false false initial_ui {[ "blob:1" ]}))
       = [UploadFiles (image_file img); CallAIAgent PROMPT AGENT_ID ["asset-1"]].
Proof.
  exact (agent_called_with_uploaded_assets noon
    (fun _ => Resolved (UploadResult (Some ["asset-1"])))
    (fun _ _ _ => Resolved (AgentResult true payload_flat None))
    (Page (Some (ImageData (File "a.png" "image/png" 10) "blob:1" None))
          false false initial_ui {[ "blob:1" ]})
    PROMPT AGENT_ID ["asset-1"] (or_intror (or_introl eq_refl))).
Defined.

(** X8.  An upload that resolves without asset ids, the property missing or
    the list empty, ends the run before the agent is asked: the error is
    ['Failed to upload image'], the busy flag is released, and the shown
    result, the raw response and the debug switch are left as they were. *)
Theorem upload_without_assets now uploadFiles callAIAgent
    (w : page) (img : image_data) (ids : option (list string)) :
  imageData w = Some img ->
  uploadFiles (image_file img) = Resolved (UploadResult ids) ->
  ids = None \/ ids = Some [] ->
  let out := handleAnalyze_run now uploadFiles callAIAgent w in
  snd out = [UploadFiles (image_file img)]
  /\ error (core (fst out)) = Some UPLOAD_ERROR
  /\ isAnalyzing (core (fst out)) = false
  /\ analysisResult (core (fst out)) = analysisResult (core w)
  /\ rawResponse (core (fst out)) = rawResponse (core w)
  /\ showDebug (core (fst out)) = showDebug (core w).
Proof.
  intros Hi Hu Hids out. subst out. unfold handleAnalyze_run.
  rewrite Hi, Hu. destruct Hids as [-> | ->]; simpl; repeat split.
Qed.

Lemma upload_without_assets_witness :
  error (core (fst (handleAnalyze_run noon
    (fun _ => Resolved (UploadResult (Some [])))
    (fun _ _ _ => Resolved (AgentResult true payload_flat None))
    (Page (Some (ImageData (File "a.png" "image/png" 10) "blob:1" None))
          false false initial_ui {[ "blob:1" ]}))))
  = Some UPLOAD_ERROR.
Proof.
  exact (proj1 (proj2 (upload_without_assets noon
    (fun _ => Resolved (UploadResult (Some [])))
    (fun _ _ _ => Resolved (AgentResult true payload_flat None))
    (Page (Some (ImageData (File "a.png" "image/png" 10) "blob:1" None))
          false false initial_ui {[ "blob:1" ]})
    (ImageData (File "a.png" "image/png" 10) "blob:1" None) (Some [])
    eq_refl eq_refl (or_intror eq_refl)))).
Defined.

(** X9.  Every run with a held image ends with the busy flag released and
    the image untouched, in one of two ways: the agent answered and the
    state is what [handleAnalyze] makes of the answer, or the run failed
    before that and only an error message was set, the shown result, the raw
    response and the debug switch staying as they were.  Without an image
    the run does nothing and calls nothing. *)
Theorem run_outcomes now uploadFiles callAIAgent (w : page) :
  let out := handleAnalyze_run now uploadFiles callAIAgent w in
  match imageData w with
  | None => out = (w, [])
  | Some img =>
      isAnalyzing (core (fst out)) = false
      /\ imageData (fst out) = Some img
      /\ ((exists assets result,
             callAIAgent PROMPT AGENT_ID assets = Resolved result
             /\ core (fst out) = handleAnalyze now result (core w))
          \/ (exists msg,
                error (core (fst out)) = Some msg
                /\ analysisResult (core (fst out)) = analysisResult (core w)
                /\ rawResponse (core (fst out)) = rawResponse (core w)
                /\ showDebug (core (fst out)) = showDebug (core w)))
  end.
Proof.
  intros out. subst out. unfold handleAnalyze_run.
  destruct (imageData w) as [img|] eqn:Hi; [|reflexivity].
  destruct (uploadFiles (image_file img)) as [[[[|id ids]|]]|r]; simpl;
    try (split; [reflexivity|]; split; [exact Hi|];
         right; eexists; repeat split).
  destruct (callAIAgent PROMPT AGENT_ID (id :: ids)) as [result|r] eqn:Ha; simpl.
  - split; [reflexivity|]. split; [exact Hi|].
    left. exists (id :: ids), result. split; [exact Ha | reflexivity].
  - split; [reflexivity|]. split; [exact Hi|]. right. eexists. repeat split.
Qed.

(** ** Clearing *)



(** X11.  Clear does all that the remove button does: removing and then
    clearing, or clearing and then removing, is clearing; and pressing
    either button twice is pressing it once.  The remove button, unlike
    Clear, leaves the error and the sample switch alone. *)
Theorem clear_subsumes_remove (w : page) :
  handleClearAll (handleRemoveImage w) = handleClearAll w
  /\ handleRemoveImage (handleClearAll w) = handleClearAll w
  /\ handleClearAll (handleClearAll w) = handleClearAll w
  /\ handleRemoveImage (handleRemoveImage w) = handleRemoveImage w
  /\ error (core (handleRemoveImage w)) = error (core w)
  /\ useSampleData (handleRemoveImage w) = useSampleData w.
Proof.
  unfold handleClearAll, handleRemoveImage, revoke_preview.
  destruct (imageData w) as [img|]; [|repeat split].
  destruct (String.eqb (preview img) ""); repeat split.
Qed.

(** ** The result panel *)

Lemma opt_members_undef (ks : list string) : opt_members VUndef ks = VUndef.
Proof. induction ks as [|k ks IH]; [reflexivity | exact IH]. Qed.

(** A chain of [?.] reads that ends in a value was a chain of reads none of
    which met [null] or [undefined], so the same chain of plain reads ends
    in that value without throwing. *)
Lemma members_defined (ks : list string) (v : value) :
  nullish (opt_members v ks) = false ->
  members v ks = Normal (opt_members v ks).
Proof.
  revert v. induction ks as [|k ks IH]; intros v H; [reflexivity|].
  simpl. destruct (nullish v) eqn:Hv.
  - unfold opt_members in H. simpl in H. unfold opt_member in H at 2.
    rewrite Hv in H. fold (opt_members VUndef ks) in H.
    rewrite opt_members_undef in H. discriminate.
  - rewrite (member_defined v k Hv), bind_normal.
    unfold opt_members in *. simpl in *.
    rewrite (opt_member_defined v k Hv) in *. apply IH. exact H.
Qed.

Lemma list_section_shown {A : Type} (row : value -> A) (d : value)
    (ks : list string) :
  list_section (opt_members d ks) d ks row
  = Normal (shown_list row (opt_members d ks)).
Proof.
  unfold list_section.
  destruct (opt_members d ks) as [| | | | |l|] eqn:Hv; try reflexivity.
  simpl isArray. cbv iota.
  assert (Hm : members d ks = Normal (VArr l))
    by (rewrite <- Hv; apply members_defined; rewrite Hv; reflexivity).
  rewrite Hm. destruct l as [|x l]; reflexivity.
Qed.

Lemma text_section_shown (d : value) :
  text_section d
  = Normal (if truthy (field_text_extracted d)
            then Some (field_text_extracted d) else None).
Proof.
  unfold text_section.
  destruct (truthy (field_text_extracted d)) eqn:Ht; [|reflexivity].
  change (field_text_extracted d)
    with (opt_members d ["result"; "data"; "text_extracted"]) in *.
  rewrite (members_defined _ d (truthy_not_nullish _ Ht)). reflexivity.
Qed.

Lemma metadata_section_shown (d : value) :
  metadata_section d
  = Normal (if truthy (field_metadata d)
            then Some (nullish_or (get "agent_name" (field_metadata d))
                                  (VStr "Unknown"),
                       if truthy (get "timestamp" (field_metadata d))
                       then Some (get "timestamp" (field_metadata d)) else None)
            else None).
Proof.
  unfold metadata_section.
  destruct (truthy (field_metadata d)) eqn:Ht; [|reflexivity].
  pose proof (truthy_not_nullish _ Ht) as Hm.
  assert (Hd : nullish d = false).
  { destruct (nullish d) eqn:Hd; [|reflexivity].
    unfold field_metadata, opt_member in Ht. rewrite Hd in Ht. discriminate. }
  assert (Hf : field_metadata d = get "metadata" d)
    by (apply opt_member_defined; exact Hd).
  rewrite Hf in *. simpl members.
  rewrite !(member_defined d _ Hd), !bind_normal.
  rewrite !(member_defined _ _ Hm), !bind_normal.
  destruct (truthy (get "timestamp" (get "metadata" d))); reflexivity.
Qed.

(** X12.  Evaluating the result panel never throws on a property read,
    whatever value is displayed: each unguarded chain of property reads sits
    behind a test that makes every link of the chain an object.  What is handed to React
    is [panel_of]: a list only for a non-empty array, the text only when
    truthy, and the metadata card only for truthy metadata. *)
Theorem render_panel_never_throws (d : value) :
  render_panel d = Normal (if truthy d then Some (panel_of d) else None).
Proof.
  unfold render_panel. destruct (truthy d); [|reflexivity].
  change (field_objects_detected d)
    with (opt_members d ["result"; "data"; "objects_detected"]).
  change (field_dominant_colors d)
    with (opt_members d ["result"; "data"; "color_analysis"; "dominant_colors"]).
  change (field_suggested_use_cases d)
    with (opt_members d ["result"; "data"; "mood_and_context";
                         "suggested_use_cases"]).
  rewrite !list_section_shown, text_section_shown, metadata_section_shown.
  reflexivity.
Qed.

Lemma shown_list_guarded {A : Type} (row : value -> A) (v : value) :
  shown_list row (if isArray v then v else VArr []) = shown_list row v.
Proof. destruct v; reflexivity. Qed.

Lemma nullish_js_or (v w : value) : nullish w = false -> nullish (js_or v w) = false.
Proof.
  intros H. unfold js_or. destruct (truthy v) eqn:E; [|exact H].
  exact (truthy_not_nullish v E).
Qed.

Lemma nullish_or_defined (v d : value) : nullish v = false -> nullish_or v d = v.
Proof. intros H. unfold nullish_or. rewrite H. reflexivity. Qed.

(** X13.  For a result made by Path 2 the panel never falls back to its
    placeholders for the summary, the scene description or the emotional
    tone: the mapping has already put a value there, so a payload without a
    scene description is shown with the empty string.  The value handed to
    the summary badge is the mapped summary and is truthy, hence never
    [null], [undefined] or the empty string; when the payload's
    [result.summary] and [message] are strings wherever they are truthy, it
    is a non-empty string.  The metadata card is always there, the text is
    shown exactly when the payload's [text_extracted] is truthy, and the
    object list exactly when the payload's [objects_detected] is a non-empty
    array.  What React makes of a value that is not a string is not part of
    this. *)
Theorem flattened_panel (now : string) (raw : value) (m : mapped) :
  reconcile now raw = Normal m ->
  path m = Some Flattened ->
  let p := panel_of (finalResult m) in
  let res := get "result" raw in
  summary_shown p = field_summary (finalResult m)
  /\ truthy (summary_shown p) = true
  /\ ((truthy (get "summary" res) = true -> exists s, get "summary" res = VStr s) ->
      (truthy (get "message" raw) = true -> exists s, get "message" raw = VStr s) ->
      exists s, summary_shown p = VStr s /\ s <> "")
  /\ scene_shown p = js_or (get "scene_description" res) (VStr "")
  /\ tone_shown p
     = js_or (opt_member (get "mood_and_context" res) "emotional_tone") (VStr "")
  /\ text_shown p
     = (if truthy (get "text_extracted" res)
        then Some (get "text_extracted" res) else None)
  /\ objects_shown p = shown_list object_row (get "objects_detected" res)
  /\ metadata_shown p <> None.
Proof.
  intros H Hp p res. subst p. destruct (reconcile_inv now raw m H) as [Hn ->].
  rewrite path_reconcile_value in Hp.
  rewrite (finalResult_flattened now raw Hp). fold res.
  unfold panel_of. simpl summary_shown. simpl scene_shown. simpl tone_shown.
  simpl text_shown. simpl objects_shown. simpl metadata_shown.
  rewrite flattened_summary, flattened_scene_description, flattened_text_extracted,
    flattened_objects_detected, flattened_metadata.
  change (field_emotional_tone (flattened_object now raw res))
    with (js_or (opt_member (get "mood_and_context" res) "emotional_tone")
                (VStr "")).
  rewrite !nullish_or_defined by (apply nullish_js_or; reflexivity).
  rewrite shown_list_guarded.
  split; [reflexivity|]. split; [rewrite truthy_js_or; apply orb_true_r|].
  split.
  { intros Hs Hm. destruct (truthy (get "summary" res)) eqn:Es.
    - destruct (Hs eq_refl) as [s Heq].
      rewrite (js_or_truthy _ (get "message" raw) Es), (js_or_truthy _ _ Es).
      exists s. split; [exact Heq|].
      intros ->. rewrite Heq in Es. discriminate Es.
    - rewrite (js_or_falsy _ (get "message" raw) Es).
      destruct (truthy (get "message" raw)) eqn:Em.
      + destruct (Hm eq_refl) as [s Heq]. rewrite (js_or_truthy _ _ Em).
        exists s. split; [exact Heq|].
        intros ->. rewrite Heq in Em. discriminate Em.
      + rewrite (js_or_falsy _ _ Em). eexists. split; [reflexivity | discriminate]. }
  repeat split.
  - rewrite truthy_js_or, orb_false_r.
    destruct (truthy (get "text_extracted" res)) eqn:Ht; [|reflexivity].
    rewrite (js_or_truthy _ _ Ht). reflexivity.
  - rewrite truthy_js_or. simpl. rewrite orb_true_r. discriminate.
Qed.

Lemma flattened_panel_witness :
  exists s,
    summary_shown (panel_of (flattened_object noon payload_flat
                               (get "result" payload_flat))) = VStr s
    /\ s <> "".
Proof.
  refine (proj1 (proj2 (proj2 (flattened_panel noon payload_flat
    (Mapped (Some Flattened)
       (flattened_object noon payload_flat (get "result" payload_flat)))
    eq_refl eq_refl))) _ _); intros H; discriminate H.
Defined.

(** ** More on the mapping *)

Lemma reconcile_canonical (now : string) (raw : value) :
  canonical_shape raw = true ->
  reconcile now raw = Normal (Mapped (Some Canonical) raw).
Proof.
  intros H. destruct (canonical_is_object raw H) as [o ->].
  rewrite reconcile_normal by reflexivity.
  unfold reconcile_value, select. rewrite H. reflexivity.
Qed.

Lemma select_canonical (raw : value) :
  select raw = Some Canonical -> canonical_shape raw = true.
Proof.
  unfold select. destruct (canonical_shape raw); [reflexivity|].
  destruct (flattened_shape raw); [discriminate|].
  destruct (double_nested_shape raw); discriminate.
Qed.

Lemma select_flattened (raw : value) :
  select raw = Some Flattened ->
  canonical_shape raw = false /\ flattened_shape raw = true.
Proof.
  unfold select. destruct (canonical_shape raw); [discriminate|].
  destruct (flattened_shape raw); [split; reflexivity|].
  destruct (double_nested_shape raw); discriminate.
Qed.

(** X14.  Mapping is idempotent: a result of the mapping, given to the
    mapping again (at any later instant), is taken by Path 1 and comes back
    unchanged. *)
Theorem reconcile_idempotent (now later : string) (raw : value) (m : mapped)
    (c : candidate) :
  reconcile now raw = Normal m ->
  path m = Some c ->
  reconcile later (finalResult m)
  = Normal (Mapped (Some Canonical) (finalResult m)).
Proof.
  intros H Hp. destruct (reconcile_inv now raw m H) as [Hn ->].
  rewrite path_reconcile_value in Hp. apply reconcile_canonical.
  destruct c.
  - rewrite (finalResult_canonical now raw Hp). exact (select_canonical raw Hp).
  - rewrite (finalResult_flattened now raw Hp). reflexivity.
  - destruct (select_not_double_nested raw Hp).
Qed.

Lemma reconcile_idempotent_witness :
  reconcile "2030-01-01T00:00:00.000Z"
    (flattened_object noon payload_flat (get "result" payload_flat))
  = Normal (Mapped (Some Canonical)
              (flattened_object noon payload_flat (get "result" payload_flat))).
Proof.
  exact (reconcile_idempotent noon "2030-01-01T00:00:00.000Z" payload_flat
    (Mapped (Some Flattened)
       (flattened_object noon payload_flat (get "result" payload_flat)))
    Flattened eq_refl eq_refl).
Defined.

(** X15.  The clock matters only where Path 2 has to make up the metadata:
    unless Path 2 is taken on a payload whose [metadata] is falsy, the
    outcome of the mapping is the same at every instant; and where it is,
    two different instants give two different results. *)
Theorem clock_read_only_for_fallback (now later : string) (raw : value) :
  (select raw <> Some Flattened \/ truthy (get "metadata" raw) = true ->
   reconcile now raw = reconcile later raw)
  /\ (select raw = Some Flattened -> truthy (get "metadata" raw) = false ->
      now <> later ->
      reconcile now raw <> reconcile later raw).
Proof.
  split.
  - intros H. destruct (nullish raw) eqn:Hn.
    + unfold reconcile, member. rewrite Hn. reflexivity.
    + rewrite !(reconcile_normal _ raw Hn). f_equal.
      unfold reconcile_value.
      destruct (select raw) as [[]|] eqn:Hs; try reflexivity.
      * destruct H as [H|H]; [congruence|].
        unfold flattened_object.
        rewrite !(js_or_truthy (get "metadata" raw) _ H). reflexivity.
      * destruct (select_not_double_nested raw Hs).
  - intros Hs Hm Hne Heq.
    pose proof (select_some_not_nullish raw _ Hs) as Hn.
    rewrite !(reconcile_normal _ raw Hn) in Heq.
    injection Heq as Heq. apply (f_equal finalResult) in Heq.
    rewrite !(finalResult_flattened _ raw Hs) in Heq.
    apply (f_equal (fun r => get "timestamp" (field_metadata r))) in Heq.
    rewrite !flattened_metadata, !(js_or_falsy _ _ Hm) in Heq.
    apply Hne. injection Heq as Heq. exact Heq.
Qed.

Lemma clock_read_only_for_fallback_witness :
  reconcile noon payload_nested = reconcile "2030-01-01T00:00:00.000Z" payload_nested
  /\ reconcile noon payload_flat <> reconcile "2030-01-01T00:00:00.000Z" payload_flat.
Proof.
  split.
  - apply (proj1 (clock_read_only_for_fallback noon "2030-01-01T00:00:00.000Z"
                    payload_nested)).
    left. vm_compute. discriminate.
  - apply (proj2 (clock_read_only_for_fallback noon "2030-01-01T00:00:00.000Z"
                    payload_flat)).
    + reflexivity.
    + reflexivity.
    + vm_compute. discriminate.
Defined.

(** X16.  Path 2 copies nothing it does not name: whatever other properties
    the payload has, the result has exactly [status], [result] and
    [metadata], its [result] exactly [summary] and [data], and its [data]
    exactly the five analysis fields. *)
Theorem flattened_keeps_named_fields_only (now : string) (raw : value)
    (m : mapped) :
  reconcile now raw = Normal m ->
  path m = Some Flattened ->
  observedTopLevelKeys (finalResult m) = {[ "status"; "result"; "metadata" ]}
  /\ observedTopLevelKeys (get "result" (finalResult m)) = {[ "summary"; "data" ]}
  /\ observedTopLevelKeys (data_of (finalResult m))
     = {[ "scene_description"; "objects_detected"; "text_extracted";
          "color_analysis"; "mood_and_context" ]}.
Proof.
  intros H Hp. destruct (reconcile_inv now raw m H) as [Hn ->].
  rewrite path_reconcile_value in Hp.
  rewrite (finalResult_flattened now raw Hp).
  repeat split; vm_compute; reflexivity.
Qed.

Lemma flattened_keeps_named_fields_only_witness :
  observedTopLevelKeys
    (flattened_object noon payload_flat (get "result" payload_flat))
  = {[ "status"; "result"; "metadata" ]}.
Proof.
  exact (proj1 (flattened_keeps_named_fields_only noon payload_flat
    (Mapped (Some Flattened)
       (flattened_object noon payload_flat (get "result" payload_flat)))
    eq_refl eq_refl)).
Defined.

(** X17.  Only an object whose [result] is an object is ever mapped: a
    string, a number, a boolean or an array, and an object whose [result] is
    one of these, take no branch. *)
Theorem mapped_payload_is_object (now : string) (raw : value) (c : candidate) :
  path_of (reconcile now raw) = Some c ->
  exists (o r : gmap string value),
    raw = VObj o /\ o !! "result" = Some (VObj r).
Proof.
  rewrite path_of_reconcile. destruct (nullish raw); [discriminate|].
  intros Hs.
  assert (Hr : truthy (get "result" raw) = true
               /\ (truthy (get "data" (get "result" raw)) = true
                   \/ has_marker (get "result" raw) = true)).
  { destruct c.
    - pose proof (select_canonical raw Hs) as Hc. unfold canonical_shape in Hc.
      destruct (truthy (get "result" raw)) eqn:Et.
      + rewrite (opt_member_defined _ _ (truthy_not_nullish _ Et)) in Hc. auto.
      + rewrite (opt_member_falsy _ _ Et) in Hc. discriminate.
    - destruct (select_flattened raw Hs) as [_ Hf]. unfold flattened_shape in Hf.
      apply andb_prop in Hf as [Ht Hm]. auto.
    - destruct (select_not_double_nested raw Hs). }
  destruct Hr as [Ht Hd].
  destruct raw as [| | | | | |o]; try discriminate Ht.
  simpl in Ht, Hd. destruct (o !! "result") as [res|] eqn:Ho; [|discriminate Ht].
  simpl in Ht, Hd. destruct res as [| | | | | |r];
    try (destruct Hd as [Hd|Hd]; discriminate Hd).
  exists o, r. split; [reflexivity | exact Ho].
Qed.

Lemma mapped_payload_is_object_witness :
  exists (o r : gmap string value),
    payload_flat = VObj o /\ o !! "result" = Some (VObj r).
Proof.
  exact (mapped_payload_is_object noon payload_flat Flattened eq_refl).
Defined.
